(** * create-baml-app: the command-orchestration workflow of [index.js]

    The script is one [async function main] that talks to four
    collaborators: the terminal ([console]), the prompt library
    ([inquirer]), the child-process facility ([execa]) and the file system
    ([fs], [path], [process]).  It is embedded here as a program of a small
    free monad over the calls made to these collaborators; a handler gives
    the collaborators' answers, and running a program against a handler
    yields the trace of calls with their answers and the way the process
    ended.

    JavaScript strings are embedded as [string].  Every comparison the
    script makes is against an ASCII literal or an ASCII character range,
    and any code unit of a non-ASCII character is above 127 in UTF-16 as in
    UTF-8, so the byte view decides them the same way.  [chalk] only
    colours text and is left out. *)

From Stdlib Require Import String Ascii List Bool Arith ZArith Lia.
Import ListNotations.
Local Open Scope list_scope.
Local Open Scope string_scope.

(** ** JavaScript odds and ends *)

(** The line feed written [\n] in the source. *)
Definition nl : string := String (ascii_of_nat 10) EmptyString.

(** The double quote, for the literals of the source that contain one. *)
Definition dq : string := String (ascii_of_nat 34) EmptyString.

(** [Array.prototype.includes] on an array of strings. *)
Definition includes (l : list string) (x : string) : bool :=
  existsb (String.eqb x) l.

(** [Array.prototype.join(sep)]. *)
Fixpoint join (sep : string) (l : list string) : string :=
  match l with
  | [] => ""
  | [x] => x
  | x :: rest => x ++ sep ++ join sep rest
  end.

(** Truthiness of a value that is a string or [undefined]. *)
Definition truthy (v : option string) : bool :=
  match v with
  | None => false
  | Some s => negb (s =? "")
  end.

(** ** Regular expressions, as far as the script uses them

    The one pattern of the source is [/^[a-zA-Z0-9-_]+$/], without flags:
    [^] and [$] are the start and the end of the whole input, the class is
    matched code unit by code unit and case-sensitively.  [test] looks for a
    match starting at any index, [+] is greedy and backtracks. *)
Module Regex.

Inductive ClassItem : Type :=
| CChar (c : ascii)
| CRange (lo hi : ascii).

Inductive Term : Type :=
| AssertStart
| AssertEnd
| PlusClass (cls : list ClassItem).

Definition Pattern : Type := list Term.

Definition inItem (c : ascii) (i : ClassItem) : bool :=
  match i with
  | CChar d => Ascii.eqb c d
  | CRange lo hi =>
      (nat_of_ascii lo <=? nat_of_ascii c)%nat && (nat_of_ascii c <=? nat_of_ascii hi)%nat
  end.

Definition inClass (cls : list ClassItem) (c : ascii) : bool :=
  existsb (inItem c) cls.

(** Does the pattern match a prefix of [s]?  [atStart] tells whether [s]
    is the whole input. *)
Fixpoint matchHere (p : Pattern) (atStart : bool) (s : string) {struct p} : bool :=
  match p with
  | [] => true
  | AssertStart :: p' => atStart && matchHere p' atStart s
  | AssertEnd :: p' =>
      match s with
      | EmptyString => matchHere p' atStart s
      | String _ _ => false
      end
  | PlusClass cls :: p' =>
      (fix plus (s : string) : bool :=
         match s with
         | EmptyString => false
         | String c s' => inClass cls c && (plus s' || matchHere p' false s')
         end) s
  end.

Fixpoint searchFrom (p : Pattern) (atStart : bool) (s : string) : bool :=
  matchHere p atStart s
  || match s with
     | EmptyString => false
     | String _ s' => searchFrom p false s'
     end.

(** [RegExp.prototype.test]. *)
Definition test (p : Pattern) (s : string) : bool := searchFrom p true s.

End Regex.

(** [/^[a-zA-Z0-9-_]+$/]: inside the class, the [-] after the range [0-9]
    is a literal dash. *)
Definition projectNamePattern : Regex.Pattern :=
  [ Regex.AssertStart;
    Regex.PlusClass [ Regex.CRange "a" "z"; Regex.CRange "A" "Z"; Regex.CRange "0" "9";
                      Regex.CChar "-"; Regex.CChar "_" ];
    Regex.AssertEnd ]%char.

Definition nameErrorMessage : string :=
  "Project name can only contain letters, numbers, dashes and underscores".

(** What a [validate] callback of inquirer returns: [true], or the message
    to show before asking again. *)
Inductive ValidateResult : Type :=
| VTrue
| VMessage (message : string).

(** The [validate] callback of the project-name question. *)
Definition validate (input : string) : ValidateResult :=
  if input =? "." then VTrue
  else if negb (Regex.test projectNamePattern input)
  then VMessage nameErrorMessage
  else VTrue.

(** ** The collaborators' interface *)

(** An error object: [error.code] (set by the child-process facility and by
    [fs]) and [error.message]. *)
Record JsError : Type := mkError {
  code : option string;
  message : string
}.

(** The [stdio] option passed to [execa]. *)
Inductive Stdio : Type :=
| Inherit
| Ignore.

(** The options object passed to [execa]: [stdio], and [cwd] when given. *)
Record ExecaOptions : Type := mkOptions {
  stdio : Stdio;
  cwd : option string
}.

(** How the promise of [execa] settles: resolved with its [stdout] field
    ([undefined] when the stream is not captured), or rejected. *)
Inductive ExecaResult : Type :=
| Resolved (stdout : option string)
| Rejected (error : JsError).

(** An [input] question of inquirer. *)
Record InputQuestion : Type := mkInput {
  inputName : string;
  inputMessage : string;
  inputDefault : string;
  inputValidate : string -> ValidateResult
}.

(** A [list] question of inquirer. *)
Record ListQuestion : Type := mkList {
  listName : string;
  listMessage : string;
  listChoices : list string
}.

(** The calls the script makes. *)
Inductive Call : Type :=
| ConsoleLog (text : string)
| ConsoleError (text : string)
| Execa (command : string) (args : list string) (options : ExecaOptions)
| PromptInput (q : InputQuestion)
| PromptList (q : ListQuestion)
| ExistsSync (path : string)
| ReaddirSync (path : string)
| MkdirSync (path : string) (recursive : bool)
| WriteFileSync (path : string) (data : string)
| ProcessCwd
| ProcessChdir (directory : string)
| PathResolve (path : string).

(** What each call answers.  A [list] prompt answers the position of the
    cursor when Enter is pressed, counted in presses of the down arrow; the
    [fs] and [process] calls that the script guards with [try] or leaves to
    [main().catch] answer the error thrown, if any.  Prompts always answer:
    a prompt the user interrupts is not part of the model, nor is a
    [process.cwd] or [path.resolve] that throws. *)
Definition Reply (c : Call) : Type :=
  match c with
  | ConsoleLog _ | ConsoleError _ => unit
  | Execa _ _ _ => ExecaResult
  | PromptInput _ => string
  | PromptList _ => nat
  | ExistsSync _ => bool
  | ReaddirSync _ => (JsError + list string)%type
  | MkdirSync _ _ | WriteFileSync _ _ | ProcessChdir _ => option JsError
  | ProcessCwd | PathResolve _ => string
  end.

(** ** Programs *)

(** A program returns, throws, ends the process ([process.exit]) or makes a
    call and goes on with its answer. *)
Inductive Prog (A : Type) : Type :=
| Ret (a : A)
| Throw (error : JsError)
| Exit (status : Z)
| Vis (c : Call) (k : Reply c -> Prog A).

Arguments Ret {A} a.
Arguments Throw {A} error.
Arguments Exit {A} status.
Arguments Vis {A} c k.

Fixpoint bind {A B : Type} (m : Prog A) (f : A -> Prog B) : Prog B :=
  match m with
  | Ret a => f a
  | Throw e => Throw e
  | Exit s => Exit s
  | Vis c k => Vis c (fun r => bind (k r) f)
  end.

(** [try { m } catch (error) { handler }]; [process.exit] is not caught. *)
Fixpoint tryCatch {A : Type} (m : Prog A) (handler : JsError -> Prog A) : Prog A :=
  match m with
  | Ret a => Ret a
  | Throw e => handler e
  | Exit s => Exit s
  | Vis c k => Vis c (fun r => tryCatch (k r) handler)
  end.

Declare Scope prog_scope.
Delimit Scope prog_scope with prog.
Bind Scope prog_scope with Prog.
Notation "x <- m ;; k" := (bind m (fun x => k))
  (at level 61, m at next level, right associativity) : prog_scope.
Notation "m ;; k" := (bind m (fun _ => k))
  (at level 61, right associativity) : prog_scope.
Local Open Scope prog_scope.

Definition call (c : Call) : Prog (Reply c) := Vis c Ret.

(** [if (c) { m }] *)
Definition when (c : bool) (m : Prog unit) : Prog unit :=
  if c then m else Ret tt.

Definition consoleLog (text : string) : Prog unit := call (ConsoleLog text).
Definition consoleError (text : string) : Prog unit := call (ConsoleError text).

(** [await execa(command, args, options)] *)
Definition execa (command : string) (args : list string) (options : ExecaOptions)
  : Prog (option string) :=
  r <- call (Execa command args options) ;;
  match r with
  | Resolved stdout => Ret stdout
  | Rejected e => Throw e
  end.

Definition existsSync (path : string) : Prog bool := call (ExistsSync path).

Definition readdirSync (path : string) : Prog (list string) :=
  r <- call (ReaddirSync path) ;;
  match r with
  | inr entries => Ret entries
  | inl e => Throw e
  end.

Definition orThrow (r : option JsError) : Prog unit :=
  match r with
  | None => Ret tt
  | Some e => Throw e
  end.

Definition mkdirSync (path : string) (recursive : bool) : Prog unit :=
  r <- call (MkdirSync path recursive) ;; orThrow r.

Definition writeFileSync (path data : string) : Prog unit :=
  r <- call (WriteFileSync path data) ;; orThrow r.

Definition chdir (directory : string) : Prog unit :=
  r <- call (ProcessChdir directory) ;; orThrow r.

(** The value a [list] prompt resolves to: the list wraps around under the
    cursor. *)
Definition pick (choices : list string) (cursor : nat) : option string :=
  nth_error choices (cursor mod length choices).

(** ** Running a program *)

(** The collaborators: a state and the answer to each call in it. *)
Definition Handler (W : Type) : Type := forall c : Call, W -> Reply c * W.

(** One entry of a trace: a call and its answer. *)
Inductive Obs : Type :=
| Did (c : Call) (r : Reply c).

Inductive Outcome (A : Type) : Type :=
| Returned (a : A)
| Thrown (error : JsError)
| Exited (status : Z).

Arguments Returned {A} a.
Arguments Thrown {A} error.
Arguments Exited {A} status.

Fixpoint interp {W A : Type} (h : Handler W) (m : Prog A) (w : W)
  : list Obs * Outcome A * W :=
  match m with
  | Ret a => ([], Returned a, w)
  | Throw e => ([], Thrown e, w)
  | Exit s => ([], Exited s, w)
  | Vis c k =>
      let (r, w1) := h c w in
      let '(t, o, w2) := interp h (k r) w1 in
      (Did c r :: t, o, w2)
  end.

(** ** The script *)

Definition showHelp : Prog unit :=
  consoleLog (nl ++ "Create BAML App 🦙") ;;
  consoleLog (nl ++ "Usage:") ;;
  consoleLog "  npx create-baml-app [project-name] [options]" ;;
  consoleLog (nl ++ "Options:") ;;
  consoleLog "  -h, --help              Show this help message" ;;
  consoleLog "  --use-current-dir, -.   Use current directory instead of creating a new one" ;;
  consoleLog (nl ++ "Examples:") ;;
  consoleLog "  npx create-baml-app my-baml-app" ;;
  consoleLog "  npx create-baml-app my-baml-app --use-current-dir" ;;
  consoleLog "  npx create-baml-app my-baml-app -." ;;
  consoleLog (nl ++ "Supported Package Managers:") ;;
  consoleLog "  - Python: pip, poetry, uv" ;;
  consoleLog "  - TypeScript: npm, pnpm, yarn, deno, bun" ;;
  consoleLog "  - Ruby: bundle" ;;
  Exit 0.

(** The diagnostic of [runCommand] for an executable that was not found. *)
Definition notFoundMessage (command : string) : string :=
  "Error: Command '" ++ command
  ++ "' not found. Please make sure it is installed and available in your PATH.".

(** The diagnostic of [runCommand] for any other failure. *)
Definition toolErrorMessage (e : JsError) : string :=
  "Error: " ++ message e.

Definition isENOENT (e : JsError) : bool :=
  match code e with
  | Some c => c =? "ENOENT"
  | None => false
  end.

(** [runCommand(command, args, description, options = {})]; the only option
    a caller ever passes is [cwd]. *)
Definition runCommand (command : string) (args : list string) (description : string)
    (options : option string) : Prog (option string) :=
  consoleLog (nl ++ "Running: " ++ description ++ "...") ;;
  tryCatch
    (stdout <- execa command args (mkOptions Inherit options) ;;
     consoleLog "✓ Success!" ;;
     Ret stdout)
    (fun error =>
       (if isENOENT error
        then consoleError (notFoundMessage command)
        else consoleError (toolErrorMessage error)) ;;
       Exit 1).

(** [checkCommandAvailable(command)] *)
Definition checkCommandAvailable (command : string) : Prog bool :=
  tryCatch
    (execa command ["--version"] (mkOptions Ignore None) ;;
     Ret true)
    (fun _ => Ret false).

(** [inquirer.prompt] with one [input] question: the validated answer. *)
Definition promptInput (q : InputQuestion) : Prog string := call (PromptInput q).

(** [inquirer.prompt] with one [list] question: the choice under the
    cursor.  A question without choices makes the prompt throw. *)
Definition promptList (q : ListQuestion) : Prog string :=
  cursor <- call (PromptList q) ;;
  match pick (listChoices q) cursor with
  | Some choice => Ret choice
  | None => Throw (mkError None "You must provide a `choices` parameter")
  end.

Definition projectNameQuestion : InputQuestion :=
  mkInput "projectName"
    ("What is your project named? (Use " ++ dq ++ "." ++ dq
     ++ " to create in current directory)")
    "my-app"
    validate.

(** "Get project name from arguments or prompt": [args[0]] unless it is
    falsy. *)
Definition getProjectName (args : list string) : Prog string :=
  let projectName := nth_error args 0 in
  if negb (truthy projectName)
  then promptInput projectNameQuestion
  else Ret (match projectName with Some name => name | None => "" end).

Definition languageQuestion : ListQuestion :=
  mkList "language" "Which language would you like to use?"
    ["Python"; "TypeScript"; "Ruby"].

(** The [switch (language)] that fills [packageManagerChoices]; it has no
    [default], so the variable stays [undefined] for any other value. *)
Definition packageManagerChoices (language : string) : option (list string) :=
  if language =? "Python" then Some ["pip"; "poetry"; "uv"]
  else if language =? "TypeScript" then Some ["npm"; "pnpm"; "yarn"; "deno"; "bun"]
  else if language =? "Ruby" then Some ["bundle"]
  else None.

Definition packageManagerQuestion (language : string) : ListQuestion :=
  mkList "packageManager"
    ("Which package manager would you like to use for " ++ language ++ "?")
    (match packageManagerChoices language with
     | Some choices => choices
     | None => []
     end).

(** The [switch (packageManager)] that fills [installLink]. *)
Definition installLink (packageManager : string) : string :=
  if packageManager =? "pip" then "https://pip.pypa.io/en/stable/installation/"
  else if packageManager =? "poetry" then "https://python-poetry.org/docs/#installation"
  else if packageManager =? "uv" then "https://github.com/astral-sh/uv#installation"
  else if packageManager =? "npm"
  then "https://docs.npmjs.com/downloading-and-installing-node-js-and-npm"
  else if packageManager =? "pnpm" then "https://pnpm.io/installation"
  else if packageManager =? "yarn" then "https://classic.yarnpkg.com/en/docs/install"
  else if packageManager =? "deno" then "https://deno.land/#installation"
  else if packageManager =? "bundle" then "https://bundler.io/#getting-started"
  else if packageManager =? "bun" then "https://bun.sh/docs/installation"
  else "".

Definition notInstalledMessage (packageManager : string) : string :=
  nl ++ "Error: " ++ packageManager ++ " is not installed or not available in PATH".

(** "Check if the package manager is available before creating
    directories" *)
Definition checkPackageManager (packageManager : string) : Prog unit :=
  isPackageManagerAvailable <- checkCommandAvailable packageManager ;;
  isPackageManagerAvailable <-
    (if negb isPackageManagerAvailable && includes ["npm"; "pnpm"; "yarn"] packageManager
     then checkCommandAvailable "node"
     else Ret isPackageManagerAvailable) ;;
  when (negb isPackageManagerAvailable)
    (consoleLog (notInstalledMessage packageManager) ;;
     consoleLog ("Please install " ++ packageManager ++ " first.") ;;
     consoleLog (installLink packageManager ++ nl) ;;
     Exit 1).

Definition notEmptyMessage : string :=
  nl ++ "Error: Current directory is not empty. Please use a new directory or empty the current one.".

Definition alreadyExistsMessage (projectName : string) : string :=
  nl ++ "Error: Directory " ++ projectName
  ++ " already exists. Please choose a different name or use --use-current-dir to use an existing directory.".

(** The emptiness check, the creation of the directory and the change into
    it. *)
Definition prepareDirectory (useCurrentDir : bool) (projectName targetDir : string)
  : Prog unit :=
  nonEmpty <-
    (if useCurrentDir
     then (present <- existsSync targetDir ;;
           if present
           then (entries <- readdirSync targetDir ;; Ret (0 <? length entries)%nat)
           else Ret false)
     else Ret false) ;;
  when nonEmpty (consoleError notEmptyMessage ;; Exit 1) ;;
  when (negb useCurrentDir)
    (present <- existsSync targetDir ;;
     when present (consoleError (alreadyExistsMessage projectName) ;; Exit 1) ;;
     consoleLog (nl ++ "Creating a new BAML app in " ++ targetDir) ;;
     tryCatch (mkdirSync targetDir true)
       (fun error =>
          consoleError ("Error creating directory: " ++ message error) ;; Exit 1)) ;;
  tryCatch (chdir targetDir)
    (fun error =>
       consoleError ("Error changing to directory: " ++ message error) ;; Exit 1).

(** [runCommand] for its effect, as the script calls it. *)
Definition run (command : string) (args : list string) (description : string)
    (options : option string) : Prog unit :=
  runCommand command args description options ;; Ret tt.

Definition setupPython (packageManager : string) : Prog unit :=
  if packageManager =? "pip" then
    present <- existsSync "requirements.txt" ;;
    when (negb present)
      (consoleLog (nl ++ "Initializing new Python project with pip...") ;;
       run "touch" ["requirements.txt"] "Creating requirements.txt" None) ;;
    run "pip" ["install"; "baml-py"] "Installing baml-py" None ;;
    run "baml-cli" ["init"] "Initializing BAML" None ;;
    run "baml-cli" ["generate"] "Generating BAML files" None
  else if packageManager =? "poetry" then
    present <- existsSync "pyproject.toml" ;;
    when (negb present)
      (consoleLog (nl ++ "Initializing new Python project with Poetry...") ;;
       run "poetry"
         ["init"; "--name=baml-project"; "--description=A BAML project"; "--author=";
          "--python=^3.8"; "--no-interaction"]
         "Creating Poetry project" None) ;;
    run "poetry" ["add"; "baml-py"] "Adding baml-py" None ;;
    run "poetry" ["run"; "baml-cli"; "init"] "Initializing BAML" None ;;
    run "poetry" ["run"; "baml-cli"; "generate"] "Generating BAML files" None
  else if packageManager =? "uv" then
    present <- existsSync "pyproject.toml" ;;
    when (negb present)
      (consoleLog (nl ++ "Initializing new Python project with uv...") ;;
       run "uv" ["init"] "Initializing uv project" None) ;;
    run "uv" ["add"; "baml-py"] "Adding baml-py" None ;;
    run "uv" ["run"; "baml-cli"; "init"] "Initializing BAML" None ;;
    run "uv" ["run"; "baml-cli"; "generate"] "Generating BAML files" None
  else Ret tt.

(** [JSON.stringify(denoConfig, null, 2)] *)
Definition denoConfig : string :=
  join nl
    ([ "{";
      "  " ++ dq ++ "compilerOptions" ++ dq ++ ": {";
      "    " ++ dq ++ "target" ++ dq ++ ": " ++ dq ++ "ES2022" ++ dq ++ ",";
      "    " ++ dq ++ "lib" ++ dq ++ ": [";
      "      " ++ dq ++ "ES2022" ++ dq ++ ",";
      "      " ++ dq ++ "DOM" ++ dq;
      "    ],";
      "    " ++ dq ++ "module" ++ dq ++ ": " ++ dq ++ "ES2022" ++ dq ++ ",";
      "    " ++ dq ++ "moduleResolution" ++ dq ++ ": " ++ dq ++ "node" ++ dq ++ ",";
      "    " ++ dq ++ "esModuleInterop" ++ dq ++ ": true,";
      "    " ++ dq ++ "strict" ++ dq ++ ": true,";
      "    " ++ dq ++ "skipLibCheck" ++ dq ++ ": true";
      "  }";
      "}" ])%string.

Definition setupTypeScript (packageManager targetDir : string) : Prog unit :=
  (* "Install TypeScript first based on package manager (except for Deno)" *)
  (if negb (packageManager =? "deno") && negb (packageManager =? "bun") then
     if packageManager =? "npm"
     then run "npm" ["install"; "typescript"; "--save-dev"] "Installing TypeScript" None
     else if packageManager =? "pnpm"
     then run "pnpm" ["add"; "typescript"; "-D"] "Installing TypeScript" None
     else if packageManager =? "yarn"
     then run "yarn" ["add"; "typescript"; "--dev"] "Installing TypeScript" None
     else Ret tt
   else if packageManager =? "bun"
   then run "bun" ["add"; "typescript"; "--dev"] "Installing TypeScript" None
   else Ret tt) ;;
  (* "Create tsconfig.json if it doesn't exist" *)
  present <- existsSync "tsconfig.json" ;;
  when (negb present)
    (tryCatch
       (if packageManager =? "npm"
        then run "npx" ["tsc"; "--init"] "Creating tsconfig.json" None
        else if packageManager =? "pnpm"
        then run "pnpm" ["exec"; "tsc"; "--init"] "Creating tsconfig.json" None
        else if packageManager =? "yarn"
        then run "yarn" ["tsc"; "--init"] "Creating tsconfig.json" None
        else if packageManager =? "bun"
        then run "bun" ["x"; "tsc"; "--init"] "Creating tsconfig.json" None
        else if packageManager =? "deno"
        then (consoleLog (nl ++ "Creating tsconfig.json for Deno...") ;;
              writeFileSync "tsconfig.json" denoConfig ;;
              consoleLog "✓ Success!")
        else Ret tt)
       (fun error =>
          consoleError ("Error creating tsconfig.json: " ++ message error) ;; Exit 1)) ;;
  if packageManager =? "npm" then
    run "npm" ["install"; "@boundaryml/baml"] "Installing @boundaryml/baml" None ;;
    run "npx" ["baml-cli"; "init"] "Initializing BAML" None ;;
    run "npx" ["baml-cli"; "generate"] "Generating BAML files" None
  else if packageManager =? "pnpm" then
    run "pnpm" ["add"; "@boundaryml/baml"] "Adding @boundaryml/baml" None ;;
    run "pnpm" ["exec"; "baml-cli"; "init"] "Initializing BAML" None ;;
    run "pnpm" ["exec"; "baml-cli"; "generate"] "Generating BAML files" None
  else if packageManager =? "yarn" then
    run "yarn" ["add"; "@boundaryml/baml"] "Adding @boundaryml/baml" None ;;
    run "yarn" ["baml-cli"; "init"] "Initializing BAML" None ;;
    run "yarn" ["baml-cli"; "generate"] "Generating BAML files" None
  else if packageManager =? "deno" then
    present <- existsSync "deno.json" ;;
    when (negb present)
      (consoleLog (nl ++ "Initializing new Deno project...") ;;
       run "deno" ["init"] "Creating deno.json" None) ;;
    run "deno" ["install"; "npm:@boundaryml/baml"] "Installing @boundaryml/baml" None ;;
    run "deno" ["run"; "-A"; "npm:@boundaryml/baml/baml-cli"; "init"]
      "Initializing BAML" None ;;
    run "deno"
      ["run"; "--unstable-sloppy-imports"; "-A"; "npm:@boundaryml/baml/baml-cli"; "generate"]
      "Generating BAML files" None ;;
    consoleLog (nl ++ "Note: As per BAML docs, for Deno in VSCode, add this to your config:") ;;
    consoleLog ("{" ++ nl ++ "  " ++ dq ++ "deno.unstable" ++ dq ++ ": ["
                ++ dq ++ "sloppy-imports" ++ dq ++ "]" ++ nl ++ "}")
  else if packageManager =? "bun" then
    present <- existsSync "package.json" ;;
    when (negb present)
      (consoleLog (nl ++ "Initializing new Bun project...") ;;
       run "bun" ["init"; "-y"] "Creating package.json" (Some targetDir)) ;;
    run "bun" ["install"; "@boundaryml/baml"] "Installing @boundaryml/baml" (Some targetDir) ;;
    run "bun" ["x"; "baml-cli"; "init"] "Initializing BAML" (Some targetDir) ;;
    run "bun" ["x"; "baml-cli"; "generate"] "Generating BAML files" (Some targetDir)
  else Ret tt.

Definition setupRuby : Prog unit :=
  present <- existsSync "Gemfile" ;;
  when (negb present)
    (consoleLog (nl ++ "Initializing new Ruby project...") ;;
     run "bundle" ["init"] "Creating Gemfile" None) ;;
  run "bundle" ["add"; "baml"; "sorbet-runtime"] "Adding baml and sorbet-runtime" None ;;
  run "bundle" ["exec"; "baml-cli"; "init"] "Initializing BAML" None ;;
  run "bundle" ["exec"; "baml-cli"; "generate"] "Generating BAML files" None.

(** "Step 3: Execute Commands" *)
Definition executeCommands (language packageManager targetDir : string) : Prog unit :=
  consoleLog (nl ++ "Setting up your " ++ language ++ " BAML project with "
              ++ packageManager ++ "..." ++ nl) ;;
  if language =? "Python" then setupPython packageManager
  else if language =? "TypeScript" then setupTypeScript packageManager targetDir
  else if language =? "Ruby" then setupRuby
  else Ret tt.

Definition allDoneMessage : string := nl ++ "🚀 All done! Your BAML project is ready.".

Definition welcomeMessage : string := nl ++ "Welcome to create-baml-app! 🦙".

Definition setUpMessage : string := nl ++ "Let's set up your BAML project..." ++ nl.

Definition nextStepsMessage : string :=
  "Next steps: Check your project directory and start coding!".

(** "Determine target directory": whether the current directory is used. *)
Definition usesCurrentDir (args : list string) (projectName : string) : bool :=
  (projectName =? ".") || includes args "--use-current-dir" || includes args "-.".

(** The part of [main] after the two selections: the availability check,
    the directory, the commands, the closing messages. *)
Definition scaffold (useCurrentDir : bool)
    (projectName targetDir language packageManager : string) : Prog unit :=
  checkPackageManager packageManager ;;
  prepareDirectory useCurrentDir projectName targetDir ;;
  executeCommands language packageManager targetDir ;;
  consoleLog allDoneMessage ;;
  consoleLog nextStepsMessage.

(** [main()], given [process.argv.slice(2)]. *)
Definition main (args : list string) : Prog unit :=
  consoleLog welcomeMessage ;;
  when (includes args "-h" || includes args "--help") showHelp ;;
  projectName <- getProjectName args ;;
  let useCurrentDir := usesCurrentDir args projectName in
  targetDir <- (if useCurrentDir then call ProcessCwd else call (PathResolve projectName)) ;;
  consoleLog setUpMessage ;;
  language <- promptList languageQuestion ;;
  packageManager <- promptList (packageManagerQuestion language) ;;
  scaffold useCurrentDir projectName targetDir language packageManager.

(** The handler of [main().catch(...)]. *)
Definition unexpected (error : JsError) : Prog unit :=
  consoleError ("An unexpected error occurred: " ++ message error) ;; Exit 1.

(** The last statement of the script: [main().catch(...)]. *)
Definition script (args : list string) : Prog unit :=
  tryCatch (main args) unexpected.

(** The exit status of the process: that of [process.exit], or 0 when the
    script runs to its end; an error nobody caught ends the process with 1. *)
Definition exitStatus {A : Type} (o : Outcome A) : Z :=
  match o with
  | Returned _ => 0
  | Thrown _ => 1
  | Exited s => s
  end.

(** One run of the script: its trace and its exit status. *)
Definition runScript {W : Type} (h : Handler W) (w : W) (args : list string)
  : list Obs * Z :=
  let '(t, o, _) := interp h (script args) w in (t, exitStatus o).

(** ** A simulated machine

    One concrete set of collaborators, to run the script on: a user who
    types lines and moves the cursor, a search path, and a file system kept
    as the list of the paths that exist. *)
Module Sim.

Record World : Type := mkWorld {
  typed : list string;        (* lines the user types at input prompts *)
  cursors : list nat;         (* cursor positions chosen at list prompts *)
  searchPath : list string;   (* executables found in the search path *)
  failing : list string;      (* executables that exit with a non-zero status *)
  files : list string;        (* absolute paths that exist *)
  workdir : string;           (* the current working directory *)
  shown : list string         (* validation messages shown so far, latest first *)
}.

(** The inquirer input prompt: an empty line stands for the default; an
    answer the [validate] callback does not accept is answered by its
    message, and the user is asked again.  A user with nothing left to
    type confirms the default. *)
Fixpoint inquirerInput (q : InputQuestion) (lines : list string)
  : string * list string * list string :=
  match lines with
  | [] => (inputDefault q, [], [])
  | line :: rest =>
      let answer := if line =? "" then inputDefault q else line in
      match inputValidate q answer with
      | VTrue => (answer, rest, [])
      | VMessage m =>
          let '(final, rest', messages) := inquirerInput q rest in
          (final, rest', m :: messages)
      end
  end.

Definition isAbsolute (p : string) : bool :=
  match p with
  | String c _ => Ascii.eqb c "/"
  | EmptyString => false
  end.

(** [path.resolve] for the plain names used here. *)
Definition resolve (dir p : string) : string :=
  if isAbsolute p then p else dir ++ "/" ++ p.

Definition exists_ (w : World) (p : string) : bool :=
  includes (files w) (resolve (workdir w) p).

(** The entries of [dir]: what follows [dir/] in the paths below it. *)
Definition entries (w : World) (dir : string) : list string :=
  let prefix := dir ++ "/" in
  flat_map
    (fun f =>
       if String.prefix prefix f
       then [substring (String.length prefix) (String.length f - String.length prefix) f]
       else [])
    (files w).

Definition addFile (w : World) (p : string) : World :=
  mkWorld (typed w) (cursors w) (searchPath w) (failing w)
    (resolve (workdir w) p :: files w) (workdir w) (shown w).

Definition enoent (what : string) : JsError :=
  mkError (Some "ENOENT") (what ++ " ENOENT").

(** A command that is not in the search path fails to spawn; one listed
    in [failing] exits with status 1; [touch] creates its operand and
    [bun add] leaves a [package.json] behind. *)
Definition spawn (w : World) (command : string) (args : list string) : ExecaResult * World :=
  if negb (includes (searchPath w) command)
  then (Rejected (enoent ("spawn " ++ command)), w)
  else if includes (failing w) command
  then (Rejected (mkError None ("Command failed with exit code 1: "
                                ++ join " " (command :: args))), w)
  else if command =? "touch"
  then (Resolved None, fold_left addFile args w)
  else if (command =? "bun") && (hd "" args =? "add")
  then (Resolved None, addFile w "package.json")
  else (Resolved None, w).

Definition handler : Handler World :=
  fun c =>
    match c as c0 return World -> Reply c0 * World with
    | ConsoleLog _ | ConsoleError _ => fun w => (tt, w)
    | Execa command args _ => fun w => spawn w command args
    | PromptInput q => fun w =>
        let '(answer, rest, messages) := inquirerInput q (typed w) in
        (answer,
         mkWorld rest (cursors w) (searchPath w) (failing w) (files w) (workdir w)
           (rev messages ++ shown w)%list)
    | PromptList _ => fun w =>
        (hd 0 (cursors w),
         mkWorld (typed w) (tl (cursors w)) (searchPath w) (failing w) (files w)
           (workdir w) (shown w))
    | ExistsSync p => fun w => (exists_ w p, w)
    | ReaddirSync p => fun w =>
        if exists_ w p then (inr (entries w (resolve (workdir w) p)), w)
        else (inl (enoent "scandir"), w)
    | MkdirSync p _ => fun w => (None, addFile w p)
    | WriteFileSync p _ => fun w => (None, addFile w p)
    | ProcessCwd => fun w => (workdir w, w)
    | ProcessChdir d => fun w =>
        if exists_ w d
        then (None,
              mkWorld (typed w) (cursors w) (searchPath w) (failing w) (files w)
                (resolve (workdir w) d) (shown w))
        else (Some (enoent "chdir"), w)
    | PathResolve p => fun w => (resolve (workdir w) p, w)
    end.

End Sim.

(** ** Scenarios on the simulated machine *)

(** A home directory holding nothing but itself; the user picks the first
    entry of both lists (Python, pip); pip and the generation CLI are
    installed. *)
Definition pipWorld : Sim.World :=
  Sim.mkWorld [] [0; 0] ["pip"; "touch"; "baml-cli"] [] ["/home/user"] "/home/user" [].

(** The same machine without pip. *)
Definition noPipWorld : Sim.World :=
  Sim.mkWorld [] [0; 0] ["touch"; "baml-cli"] [] ["/home/user"] "/home/user" [].

(** Node is installed, yarn is not; the user picks TypeScript and yarn. *)
Definition yarnlessWorld : Sim.World :=
  Sim.mkWorld [] [1; 2] ["node"; "npm"; "npx"] [] ["/home/user"] "/home/user" [].

(** The current directory already holds a file. *)
Definition busyWorld : Sim.World :=
  Sim.mkWorld [] [0; 0] ["pip"; "touch"; "baml-cli"] []
    ["/home/user"; "/home/user/notes.txt"] "/home/user" [].

(** pip is installed, the generation CLI is not. *)
Definition noCliWorld : Sim.World :=
  Sim.mkWorld [] [0; 0] ["pip"; "touch"] [] ["/home/user"] "/home/user" [].

(** The user picks TypeScript and bun, which is installed. *)
Definition bunWorld : Sim.World :=
  Sim.mkWorld [] [1; 4] ["bun"] [] ["/home/user"] "/home/user" [].

(** Nobody typed a name on the command line; the user first tries a name
    with a space in it. *)
Definition typingWorld : Sim.World :=
  Sim.mkWorld ["my app"; "demo"] [0; 0] ["pip"; "touch"; "baml-cli"] []
    ["/home/user"] "/home/user" [].

(** The same world with other lines waiting to be typed. *)
Definition typing (lines : list string) (w : Sim.World) : Sim.World :=
  Sim.mkWorld lines (Sim.cursors w) (Sim.searchPath w) (Sim.failing w) (Sim.files w)
    (Sim.workdir w) (Sim.shown w).

(** Two worlds that differ at most in the messages shown. *)
Definition sameButShown (a b : Sim.World) : Prop :=
  Sim.typed a = Sim.typed b /\ Sim.cursors a = Sim.cursors b
  /\ Sim.searchPath a = Sim.searchPath b /\ Sim.failing a = Sim.failing b
  /\ Sim.files a = Sim.files b /\ Sim.workdir a = Sim.workdir b.

(** ** Reading a trace *)

(** The first entry of a list that [f] recognises. *)
Fixpoint firstSome {A B : Type} (f : A -> option B) (l : list A) : option B :=
  match l with
  | [] => None
  | x :: l' =>
      match f x with
      | Some b => Some b
      | None => firstSome f l'
      end
  end.

(** The command of a call made by [runCommand]: those are the calls of
    [execa] with inherited streams. *)
Definition stepOf (o : Obs) : option (string * list string) :=
  match o with
  | Did (Execa command args (mkOptions Inherit _)) _ => Some (command, args)
  | _ => None
  end.

(** The commands started through [runCommand], in order. *)
Fixpoint steps (t : list Obs) : list (string * list string) :=
  match t with
  | [] => []
  | o :: t' =>
      match stepOf o with
      | Some s => s :: steps t'
      | None => steps t'
      end
  end.

Definition failedStep (o : Obs) : bool :=
  match o with
  | Did (Execa _ _ (mkOptions Inherit _)) (Rejected _) => true
  | _ => false
  end.

(** No command started through [runCommand] failed. *)
Definition allStepsSucceeded (t : list Obs) : bool :=
  forallb (fun o => negb (failedStep o)) t.

(** The first command started through [runCommand] that failed: its
    executable, the error, and what the trace shows after it. *)
Fixpoint firstFailure (t : list Obs) : option (string * JsError * list Obs) :=
  match t with
  | [] => None
  | Did (Execa command _ (mkOptions Inherit _)) (Rejected e) :: t' => Some (command, e, t')
  | _ :: t' => firstFailure t'
  end.

(** The [list] prompt named [name]: its choices and the cursor answered. *)
Definition listPromptOf (name : string) (o : Obs) : option (list string * nat) :=
  match o with
  | Did (PromptList q) cursor =>
      if listName q =? name then Some (listChoices q, cursor) else None
  | _ => None
  end.

(** The choices the prompt named [name] offered. *)
Definition offered (name : string) (t : list Obs) : option (list string) :=
  option_map fst (firstSome (listPromptOf name) t).

(** The value the prompt named [name] resolved to. *)
Definition selected (name : string) (t : list Obs) : option string :=
  match firstSome (listPromptOf name) t with
  | Some (choices, cursor) => pick choices cursor
  | None => None
  end.

Definition inputOf (o : Obs) : option string :=
  match o with
  | Did (PromptInput _) answer => Some answer
  | _ => None
  end.

(** The project name of a run: [args[0]] when truthy, else the answer of
    the input prompt. *)
Definition projectNameOf (args : list string) (t : list Obs) : option string :=
  if truthy (nth_error args 0) then nth_error args 0 else firstSome inputOf t.

Definition isVersionQuery (args : list string) : bool :=
  match args with
  | [a] => a =? "--version"
  | _ => false
  end.

(** The answer to the silent version query of [command]. *)
Definition probeOf (command : string) (o : Obs) : option ExecaResult :=
  match o with
  | Did (Execa c args (mkOptions Ignore _)) r =>
      if (c =? command) && isVersionQuery args then Some r else None
  | _ => None
  end.

Definition probe (command : string) (t : list Obs) : option ExecaResult :=
  firstSome (probeOf command) t.

(** The executable was not found when probed. *)
Definition probedMissing (command : string) (t : list Obs) : bool :=
  match probe command t with
  | Some (Rejected e) => isENOENT e
  | _ => false
  end.

(** The probe succeeded. *)
Definition probedPresent (command : string) (t : list Obs) : bool :=
  match probe command t with
  | Some (Resolved _) => true
  | _ => false
  end.

(** The probe failed, for whatever reason. *)
Definition probedFailing (command : string) (t : list Obs) : bool :=
  match probe command t with
  | Some (Rejected _) => true
  | _ => false
  end.

Definition isExeca (o : Obs) : bool :=
  match o with
  | Did (Execa _ _ _) _ => true
  | _ => false
  end.

(** A silent version query, whatever its answer. *)
Definition isProbe (o : Obs) : bool :=
  match o with
  | Did (Execa _ args (mkOptions Ignore _)) _ => isVersionQuery args
  | _ => false
  end.

(** Every external command of the trace is a silent version query. *)
Definition probesOnly (t : list Obs) : bool :=
  forallb (fun o => implb (isExeca o) (isProbe o)) t.

Definition isMkdir (o : Obs) : bool :=
  match o with
  | Did (MkdirSync _ _) _ => true
  | _ => false
  end.

(** Calls that create or change something: a directory made, a file
    written, the working directory changed, a scaffolding command run. *)
Definition mutating (o : Obs) : bool :=
  match o with
  | Did (MkdirSync _ _) _ | Did (WriteFileSync _ _) _ | Did (ProcessChdir _) _ => true
  | Did (Execa _ _ (mkOptions Inherit _)) _ => true
  | _ => false
  end.

Definition untouched (t : list Obs) : bool :=
  forallb (fun o => negb (mutating o)) t.

Definition isLog (o : Obs) : bool :=
  match o with
  | Did (ConsoleLog _) _ => true
  | _ => false
  end.

(** [text] went to the standard output. *)
Definition printed (text : string) (t : list Obs) : Prop :=
  In (Did (ConsoleLog text) tt) t.

Definition cwdOf (o : Obs) : option string :=
  match o with
  | Did ProcessCwd dir => Some dir
  | _ => None
  end.

(** The target directory as the script looked it up. *)
Definition targetDirOf (o : Obs) : option string :=
  match o with
  | Did ProcessCwd dir => Some dir
  | Did (PathResolve _) dir => Some dir
  | _ => None
  end.

Definition existsOf (path : string) (o : Obs) : option bool :=
  match o with
  | Did (ExistsSync p) present => if p =? path then Some present else None
  | _ => None
  end.

Definition readdirOf (path : string) (o : Obs) : option (JsError + list string) :=
  match o with
  | Did (ReaddirSync p) r => if p =? path then Some r else None
  | _ => None
  end.

(** What the script found when it looked at [dir]: never that it does not
    exist, never an empty or unreadable listing. *)
Definition foundNonEmpty (dir : string) (t : list Obs) : Prop :=
  firstSome (existsOf dir) t <> Some false
  /\ forall r, firstSome (readdirOf dir) t = Some r -> exists e es, r = inr (e :: es).

(** The part of a trace after the change into the target directory. *)
Fixpoint afterChdir (t : list Obs) : list Obs :=
  match t with
  | [] => []
  | Did (ProcessChdir _) None :: t' => t'
  | _ :: t' => afterChdir t'
  end.

(** What [existsSync(path)] answered inside the target directory. *)
Definition foundInTarget (path : string) (t : list Obs) : option bool :=
  firstSome (existsOf path) (afterChdir t).

(** The change into the target directory succeeded. *)
Definition enteredTarget (t : list Obs) : bool :=
  existsb (fun o => match o with
                    | Did (ProcessChdir _) None => true
                    | _ => false
                    end) t.

(** [t] ends with [suffix]. *)
Inductive endsWith (suffix : list Obs) : list Obs -> Prop :=
| endsHere : endsWith suffix suffix
| endsLater (o : Obs) (t : list Obs) : endsWith suffix t -> endsWith suffix (o :: t).

(** ** The parts of a run *)

Definition helpRequested (args : list string) : bool :=
  includes args "-h" || includes args "--help".

(** What a run shows before the availability check: the greeting, the
    question for the name when [args[0]] is falsy, the look-up of the target
    directory, and the two selections. *)
Definition askedName (args : list string) (projectName : string) : list Obs :=
  if truthy (nth_error args 0) then []
  else [Did (PromptInput projectNameQuestion) projectName].

Definition lookedUp (useCurrentDir : bool) (projectName targetDir : string) : Obs :=
  if useCurrentDir then Did ProcessCwd targetDir
  else Did (PathResolve projectName) targetDir.

Definition opening (args : list string) (projectName targetDir : string)
    (languageCursor managerCursor : nat) (language : string) : list Obs :=
  Did (ConsoleLog welcomeMessage) tt
  :: (askedName args projectName
      ++ [ lookedUp (usesCurrentDir args projectName) projectName targetDir;
           Did (ConsoleLog setUpMessage) tt;
           Did (PromptList languageQuestion) languageCursor;
           Did (PromptList (packageManagerQuestion language)) managerCursor ])%list.

(** The commands and the closing messages: what [main] does once it is in
    the target directory. *)
Definition commandsAndClosing (language packageManager targetDir : string) : Prog unit :=
  executeCommands language packageManager targetDir ;;
  consoleLog allDoneMessage ;;
  consoleLog nextStepsMessage.

(** The diagnostic of [runCommand]. *)
Definition diagnostic (command : string) (e : JsError) : string :=
  if isENOENT e then notFoundMessage command else toolErrorMessage e.

(** ** The character class of project names, as the specification writes it *)

(** The characters of [[A-Za-z0-9-_]], spelled out. *)
Definition nameAlphabet : string :=
  "ABCDEFGHIJKLMNOPQRSTUVWXYZabcdefghijklmnopqrstuvwxyz0123456789-_".

Definition inNameAlphabet (c : ascii) : bool :=
  existsb (Ascii.eqb c) (list_ascii_of_string nameAlphabet).

Fixpoint allInAlphabet (s : string) : bool :=
  match s with
  | EmptyString => true
  | String c s' => inNameAlphabet c && allInAlphabet s'
  end.

(** A string matches [[A-Za-z0-9-_]+]: it is not empty and all its
    characters are in the class. *)
Definition matchesNameClass (s : string) : bool :=
  negb (s =? "") && allInAlphabet s.

(** ** The ecosystems, as the specification describes them *)


(** How a manifest file comes into being: by a command, or written by the
    script itself. *)
Inductive Creation : Type :=
| ByCommand (command : string) (args : list string)
| ByWrite (path : string).

Fixpoint sameArgs (a b : list string) : bool :=
  match a, b with
  | [], [] => true
  | x :: a', y :: b' => (x =? y) && sameArgs a' b'
  | _, _ => false
  end.

(** The call [o] is the creation step [c]. *)
Definition creates (c : Creation) (o : Obs) : bool :=
  match o with
  | Did (Execa command args (mkOptions Inherit _)) _ =>
      match c with
      | ByCommand command' args' => (command =? command') && sameArgs args args'
      | ByWrite _ => false
      end
  | Did (WriteFileSync path _) _ =>
      match c with
      | ByWrite path' => path =? path'
      | ByCommand _ _ => false
      end
  | _ => false
  end.

Definition performed (c : Creation) (t : list Obs) : bool := existsb (creates c) t.

(** The manifest files of each package manager, each with the step that
    creates it. *)
Definition manifests (packageManager : string) : list (string * Creation) :=
  if packageManager =? "pip"
  then [("requirements.txt", ByCommand "touch" ["requirements.txt"])]
  else if packageManager =? "poetry"
  then [("pyproject.toml",
         ByCommand "poetry"
           ["init"; "--name=baml-project"; "--description=A BAML project"; "--author=";
            "--python=^3.8"; "--no-interaction"])]
  else if packageManager =? "uv"
  then [("pyproject.toml", ByCommand "uv" ["init"])]
  else if packageManager =? "npm"
  then [("tsconfig.json", ByCommand "npx" ["tsc"; "--init"])]
  else if packageManager =? "pnpm"
  then [("tsconfig.json", ByCommand "pnpm" ["exec"; "tsc"; "--init"])]
  else if packageManager =? "yarn"
  then [("tsconfig.json", ByCommand "yarn" ["tsc"; "--init"])]
  else if packageManager =? "deno"
  then [("tsconfig.json", ByWrite "tsconfig.json"); ("deno.json", ByCommand "deno" ["init"])]
  else if packageManager =? "bun"
  then [("tsconfig.json", ByCommand "bun" ["x"; "tsc"; "--init"]);
        ("package.json", ByCommand "bun" ["init"; "-y"])]
  else if packageManager =? "bundle"
  then [("Gemfile", ByCommand "bundle" ["init"])]
  else [].

(** The dependency-add step and the two generation steps of each package
    manager. *)
Definition closingSteps (packageManager : string) : list (string * list string) :=
  if packageManager =? "pip"
  then [("pip", ["install"; "baml-py"]); ("baml-cli", ["init"]); ("baml-cli", ["generate"])]
  else if packageManager =? "poetry"
  then [("poetry", ["add"; "baml-py"]); ("poetry", ["run"; "baml-cli"; "init"]);
        ("poetry", ["run"; "baml-cli"; "generate"])]
  else if packageManager =? "uv"
  then [("uv", ["add"; "baml-py"]); ("uv", ["run"; "baml-cli"; "init"]);
        ("uv", ["run"; "baml-cli"; "generate"])]
  else if packageManager =? "npm"
  then [("npm", ["install"; "@boundaryml/baml"]); ("npx", ["baml-cli"; "init"]);
        ("npx", ["baml-cli"; "generate"])]
  else if packageManager =? "pnpm"
  then [("pnpm", ["add"; "@boundaryml/baml"]); ("pnpm", ["exec"; "baml-cli"; "init"]);
        ("pnpm", ["exec"; "baml-cli"; "generate"])]
  else if packageManager =? "yarn"
  then [("yarn", ["add"; "@boundaryml/baml"]); ("yarn", ["baml-cli"; "init"]);
        ("yarn", ["baml-cli"; "generate"])]
  else if packageManager =? "deno"
  then [("deno", ["install"; "npm:@boundaryml/baml"]);
        ("deno", ["run"; "-A"; "npm:@boundaryml/baml/baml-cli"; "init"]);
        ("deno", ["run"; "--unstable-sloppy-imports"; "-A"; "npm:@boundaryml/baml/baml-cli";
                  "generate"])]
  else if packageManager =? "bun"
  then [("bun", ["install"; "@boundaryml/baml"]); ("bun", ["x"; "baml-cli"; "init"]);
        ("bun", ["x"; "baml-cli"; "generate"])]
  else if packageManager =? "bundle"
  then [("bundle", ["add"; "baml"; "sorbet-runtime"]); ("bundle", ["exec"; "baml-cli"; "init"]);
        ("bundle", ["exec"; "baml-cli"; "generate"])]
  else [].

(** The first command of the sequence of npm, pnpm and yarn: installing
    TypeScript. *)
Definition typeScriptInstall (packageManager : string) : string * list string :=
  if packageManager =? "npm" then ("npm", ["install"; "typescript"; "--save-dev"])
  else if packageManager =? "pnpm" then ("pnpm", ["add"; "typescript"; "-D"])
  else ("yarn", ["add"; "typescript"; "--dev"]).

(** ** More to read from a trace *)

(** What went to the standard error. *)
Definition errorOf (o : Obs) : option string :=
  match o with
  | Did (ConsoleError text) _ => Some text
  | _ => None
  end.

(** The first complaint of a run. *)
Definition firstError (t : list Obs) : option string := firstSome errorOf t.

Fixpoint lastObs (t : list Obs) : option Obs :=
  match t with
  | [] => None
  | [o] => Some o
  | _ :: t' => lastObs t'
  end.

(** The last thing the run did was to complain on the standard error. *)
Definition endsWithError (t : list Obs) : bool :=
  match lastObs t with
  | Some (Did (ConsoleError _) _) => true
  | _ => false
  end.

(** The last thing the run did was to print [text]. *)
Definition endsWithLog (text : string) (t : list Obs) : bool :=
  match lastObs t with
  | Some (Did (ConsoleLog s) _) => s =? text
  | _ => false
  end.

(** The directory [mkdirSync] was asked to make, with the [recursive]
    option and the error thrown, if any. *)
Definition mkdirOf (o : Obs) : option (string * bool * option JsError) :=
  match o with
  | Did (MkdirSync path recursive) r => Some (path, recursive, r)
  | _ => None
  end.

(** The directory [process.chdir] was asked to enter, with the error
    thrown, if any. *)
Definition chdirOf (o : Obs) : option (string * option JsError) :=
  match o with
  | Did (ProcessChdir directory) r => Some (directory, r)
  | _ => None
  end.

(** What [readdirSync] answered, whatever the directory. *)
Definition listingOf (o : Obs) : option (JsError + list string) :=
  match o with
  | Did (ReaddirSync _) r => Some r
  | _ => None
  end.

(** What [path.resolve] was given and what it answered. *)
Definition resolveOf (o : Obs) : option (string * string) :=
  match o with
  | Did (PathResolve path) dir => Some (path, dir)
  | _ => None
  end.

(** The file [writeFileSync] was asked to write, its contents, and the
    error thrown, if any. *)
Definition writeOf (o : Obs) : option (string * string * option JsError) :=
  match o with
  | Did (WriteFileSync path data) r => Some (path, data, r)
  | _ => None
  end.

(** A command that is given a working directory is given [dir]. *)
Definition cwdWithin (dir : string) (o : Obs) : bool :=
  match o with
  | Did (Execa _ _ (mkOptions _ (Some d))) _ => d =? dir
  | _ => true
  end.

(** The names of the questions asked, in order. *)
Definition questionOf (o : Obs) : option string :=
  match o with
  | Did (PromptInput q) _ => Some (inputName q)
  | Did (PromptList q) _ => Some (listName q)
  | _ => None
  end.

Fixpoint questions (t : list Obs) : list string :=
  match t with
  | [] => []
  | o :: t' =>
      match questionOf o with
      | Some name => name :: questions t'
      | None => questions t'
      end
  end.

(** The calls [main] makes once it is in the target directory: messages,
    looks at marker files, commands through [runCommand] that inherit the
    working directory or are given [targetDir] as theirs, and the one file
    the script writes itself. *)
Definition commandCall (targetDir : string) (o : Obs) : bool :=
  match o with
  | Did (ConsoleLog _) _ | Did (ConsoleError _) _ | Did (ExistsSync _) _ => true
  | Did (Execa _ _ (mkOptions Inherit None)) _ => true
  | Did (Execa _ _ (mkOptions Inherit (Some dir))) _ => dir =? targetDir
  | Did (WriteFileSync path data) _ => (path =? "tsconfig.json") && (data =? denoConfig)
  | _ => false
  end.

(** ** The plan of each ecosystem *)

Definition managers : list string :=
  ["pip"; "poetry"; "uv"; "npm"; "pnpm"; "yarn"; "deno"; "bun"; "bundle"].

(** The commands that come before the manifest files are looked at: the
    installation of TypeScript, for the managers that have one. *)
Definition firstSteps (packageManager : string) : list (string * list string) :=
  if includes ["npm"; "pnpm"; "yarn"] packageManager
  then [typeScriptInstall packageManager]
  else if packageManager =? "bun" then [("bun", ["add"; "typescript"; "--dev"])]
  else [].

Definition creationCommand (c : Creation) : list (string * list string) :=
  match c with
  | ByCommand command args => [(command, args)]
  | ByWrite _ => []
  end.

(** The commands of a package manager, given which of its manifest files
    are found: the first steps, the creation of each manifest that is not
    there, then dependency-add, [init] and [generate]. *)
Definition plan (packageManager : string) (found : string -> bool)
  : list (string * list string) :=
  (firstSteps packageManager
   ++ flat_map (fun mc => if found (fst mc) then [] else creationCommand (snd mc))
        (manifests packageManager)
   ++ closingSteps packageManager)%list.

(** The marker files a trace shows as found. *)
Definition foundAmong (t : list Obs) (path : string) : bool :=
  match firstSome (existsOf path) t with
  | Some true => true
  | _ => false
  end.

(** Every command a run of the script can start, with its arguments. *)
Definition plannedCommands : list (string * list string) :=
  flat_map (fun pm => plan pm (fun _ => false)) managers.

Definition sameStep (a b : string * list string) : bool :=
  (fst a =? fst b) && sameArgs (snd a) (snd b).

(** The command line of a call of [execa] is a constant of the script: the
    version query of a package manager or of node, run silently, or one of
    the planned commands. *)
Definition fixedCommandLine (o : Obs) : bool :=
  match o with
  | Did (Execa command args (mkOptions Ignore _)) _ =>
      isVersionQuery args && includes ("node" :: managers) command
  | Did (Execa command args (mkOptions Inherit _)) _ =>
      existsb (sameStep (command, args)) plannedCommands
  | _ => true
  end.

(** ** More scenarios on the simulated machine *)

(** The directory of the project is already there. *)
Definition takenWorld : Sim.World :=
  Sim.mkWorld [] [0; 0] ["pip"; "touch"; "baml-cli"] []
    ["/home/user"; "/home/user/demo"] "/home/user" [].


Definition lockedOut (e : JsError) : Handler Sim.World :=
  fun c =>
    match c as c0 return Sim.World -> Reply c0 * Sim.World with
    | ProcessChdir _ => fun w => (Some e, w)
    | c0 => Sim.handler c0
    end.

(** A machine on which no directory can be listed. *)
Definition unreadable (e : JsError) : Handler Sim.World :=
  fun c =>
    match c as c0 return Sim.World -> Reply c0 * Sim.World with
    | ReaddirSync _ => fun w => (inl e, w)
    | c0 => Sim.handler c0
    end.

(** A machine on which no file can be written. *)
Definition writeProtected (e : JsError) : Handler Sim.World :=
  fun c =>
    match c as c0 return Sim.World -> Reply c0 * Sim.World with
    | WriteFileSync _ _ => fun w => (Some e, w)
    | c0 => Sim.handler c0
    end.

Definition eacces : JsError := mkError (Some "EACCES") "EACCES: permission denied".

(** The user picks TypeScript and deno, which is installed, as is the
    generation CLI it runs. *)
Definition denoWorld : Sim.World :=
  Sim.mkWorld [] [1; 3] ["deno"] [] ["/home/user"] "/home/user" [].

(** ** Before the target directory *)

(** What [main] does on its way into the target directory when nothing
    goes wrong: messages on the standard output, questions, look-ups, silent
    probes that inherit the working directory, the look at the directory,
    its creation and the change into it. *)
Definition preparing (o : Obs) : bool :=
  match o with
  | Did (ConsoleError _) _ | Did (WriteFileSync _ _) _ => false
  | Did (Execa _ _ (mkOptions Ignore None)) _ => true
  | Did (Execa _ _ _) _ => false
  | _ => true
  end.

(** The only file the script writes itself is the [tsconfig.json] of
    deno. *)
Definition fixedWrite (o : Obs) : bool :=
  match o with
  | Did (WriteFileSync path data) _ => (path =? "tsconfig.json") && (data =? denoConfig)
  | _ => true
  end.

(** The advice a successful run with deno ends its commands with. *)
Definition denoNote : string :=
  nl ++ "Note: As per BAML docs, for Deno in VSCode, add this to your config:".

Definition denoSetting : string :=
  "{" ++ nl ++ "  " ++ dq ++ "deno.unstable" ++ dq ++ ": [" ++ dq ++ "sloppy-imports" ++ dq
  ++ "]" ++ nl ++ "}".

(** ** Running the script again *)




(** * Properties *)

(** ** Reading the empty trace *)

Lemma nothing_read_from_empty_trace :
  (forall name, selected name [] = None /\ offered name [] = None)
  /\ projectNameOf [] [] = None
  /\ (forall command,
        probe command [] = None /\ probedMissing command [] = false
        /\ probedPresent command [] = false /\ probedFailing command [] = false)
  /\ (forall path,
        foundInTarget path [] = None /\ firstSome (existsOf path) [] = None
        /\ firstSome (readdirOf path) [] = None)
  /\ firstSome cwdOf [] = None
  /\ firstSome targetDirOf [] = None
  /\ untouched [] = true
  /\ probesOnly [] = true
  /\ existsb isMkdir [] = false
  /\ enteredTarget [] = false
  /\ steps [] = []
  /\ allStepsSucceeded [] = true
  /\ firstFailure [] = None
  /\ (forall c, performed c [] = false).
Proof. repeat split. Qed.

(** ** The project-name validation *)

Section Validation.

Let cls : list Regex.ClassItem :=
  [ Regex.CRange "a" "z"; Regex.CRange "A" "Z"; Regex.CRange "0" "9";
    Regex.CChar "-"; Regex.CChar "_" ]%char.

Lemma class_is_alphabet (c : ascii) : Regex.inClass cls c = inNameAlphabet c.
Proof. destruct c as [[] [] [] [] [] [] [] []]; reflexivity. Qed.

Lemma anchored_never_matches_later (p : Regex.Pattern) (s : string) :
  Regex.searchFrom (Regex.AssertStart :: p) false s = false.
Proof. induction s as [|c s IH]; simpl; [reflexivity | exact IH]. Qed.

Lemma plus_to_end (b : bool) (s : string) :
  Regex.matchHere [Regex.PlusClass cls; Regex.AssertEnd] b s = matchesNameClass s.
Proof.
  unfold matchesNameClass.
  induction s as [|c s IH]; [reflexivity|].
  change (Regex.matchHere [Regex.PlusClass cls; Regex.AssertEnd] b (String c s))
    with (Regex.inClass cls c
          && (Regex.matchHere [Regex.PlusClass cls; Regex.AssertEnd] b s
              || Regex.matchHere [Regex.AssertEnd] false s)).
  rewrite IH, class_is_alphabet.
  destruct s as [|d s]; simpl; [reflexivity|].
  now rewrite orb_false_r.
Qed.

Lemma test_projectNamePattern (s : string) :
  Regex.test projectNamePattern s = matchesNameClass s.
Proof.
  unfold Regex.test, projectNamePattern.
  destruct s as [|c s].
  - reflexivity.
  - cbn [Regex.searchFrom].
    rewrite anchored_never_matches_later, orb_false_r.
    cbn [Regex.matchHere andb].
    exact (plus_to_end false (String c s)).
Qed.

End Validation.

Lemma validate_accepts (s : string) :
  matchesNameClass s = true -> validate s = VTrue.
Proof.
  intros H. unfold validate. rewrite test_projectNamePattern, H.
  now destruct (s =? ".").
Qed.

Lemma validate_rejects (s : string) :
  matchesNameClass s = false -> s <> "." -> validate s = VMessage nameErrorMessage.
Proof.
  intros H Hdot. unfold validate. rewrite test_projectNamePattern, H.
  apply String.eqb_neq in Hdot. now rewrite Hdot.
Qed.

Lemma rejected_line_is_asked_again (line : string) (rest : list string) :
  line <> "" -> matchesNameClass line = false -> line <> "." ->
  Sim.inquirerInput projectNameQuestion (line :: rest)
  = let '(final, rest', messages) := Sim.inquirerInput projectNameQuestion rest in
    (final, rest', nameErrorMessage :: messages).
Proof.
  intros Hne Hcls Hdot.
  cbn [Sim.inquirerInput projectNameQuestion inputValidate inputDefault].
  apply String.eqb_neq in Hne. rewrite Hne.
  now rewrite (validate_rejects line Hcls Hdot).
Qed.

(** What the simulated machine answers does not depend on the messages it
    has shown. *)
Lemma sameButShown_addFile (a b : Sim.World) (p : string) :
  sameButShown a b -> sameButShown (Sim.addFile a p) (Sim.addFile b p).
Proof.
  intros (Ht & Hc & Hs & Hf & Hfiles & Hw). unfold Sim.addFile, sameButShown. cbn.
  rewrite Hfiles, Hw. auto 10.
Qed.

Lemma sameButShown_touch (args : list string) (a b : Sim.World) :
  sameButShown a b -> sameButShown (fold_left Sim.addFile args a) (fold_left Sim.addFile args b).
Proof.
  revert a b. induction args as [|p args IH]; intros a b H; cbn; [exact H|].
  apply IH. now apply sameButShown_addFile.
Qed.

Lemma handler_sameButShown (c : Call) (a b : Sim.World) :
  sameButShown a b ->
  fst (Sim.handler c a) = fst (Sim.handler c b)
  /\ sameButShown (snd (Sim.handler c a)) (snd (Sim.handler c b)).
Proof.
  intros H. pose proof H as (Ht & Hc & Hs & Hf & Hfiles & Hw).
  destruct c; cbn [Sim.handler];
    unfold Sim.spawn, Sim.exists_, Sim.entries;
    rewrite ?Ht, ?Hc, ?Hs, ?Hf, ?Hfiles, ?Hw;
    repeat match goal with
           | |- context [if ?x then _ else _] => destruct x
           | |- context [Sim.inquirerInput ?q ?l] =>
               destruct (Sim.inquirerInput q l) as [[? ?] ?]
           end;
    cbn [fst snd];
    (split; [reflexivity|]);
    auto using sameButShown_touch, sameButShown_addFile;
    unfold sameButShown; cbn; auto 10.
Qed.

Lemma interp_sameButShown {A : Type} (m : Prog A) (a b : Sim.World) :
  sameButShown a b ->
  fst (interp Sim.handler m a) = fst (interp Sim.handler m b).
Proof.
  revert a b. induction m as [x|e|s|c k IH]; intros a b H; cbn [interp]; try reflexivity.
  destruct (handler_sameButShown c a b H) as [Hr Hw].
  destruct (Sim.handler c a) as [ra wa]. destruct (Sim.handler c b) as [rb wb].
  cbn [fst snd] in Hr, Hw. subst rb.
  specialize (IH ra wa wb Hw).
  destruct (interp Sim.handler (k ra) wa) as [[ta oa] wa'].
  destruct (interp Sim.handler (k ra) wb) as [[tb ob] wb'].
  cbn [fst] in *. now injection IH as -> ->.
Qed.

Lemma rejected_line_changes_nothing (w : Sim.World) (line : string) :
  line <> "" -> matchesNameClass line = false -> line <> "." ->
  runScript Sim.handler (typing (line :: Sim.typed w) w) []
  = runScript Sim.handler w [].
Proof.
  intros Hne Hcls Hdot.
  pose proof (rejected_line_is_asked_again line (Sim.typed w) Hne Hcls Hdot) as Hloop.
  unfold runScript, script, main, getProjectName.
  cbn [nth_error truthy negb includes existsb orb when bind tryCatch consoleLog call promptInput
       interp Sim.handler].
  cbn [typing Sim.typed]. rewrite Hloop.
  destruct (Sim.inquirerInput projectNameQuestion (Sim.typed w)) as [[answer rest] messages].
  match goal with
  | |- context [interp Sim.handler ?m ?a] =>
      match goal with
      | |- context [interp Sim.handler m ?b] =>
          tryif constr_eq a b then fail
          else (assert (Hsame : fst (interp Sim.handler m a) = fst (interp Sim.handler m b))
                 by (apply interp_sameButShown; unfold sameButShown, typing; cbn; auto 10);
                destruct (interp Sim.handler m a) as [[ta oa] wa];
                destruct (interp Sim.handler m b) as [[tb ob] wb])
      end
  end.
  cbn [fst] in Hsame. now injection Hsame as -> ->.
Qed.

(** C7.  The [validate] callback of the project-name prompt accepts every
    string that matches [[A-Za-z0-9-_]+]; every other string except ["."]
    it answers with its message.  The prompt then drops the rejected line,
    shows the message and asks again; the run of the script is the one it
    would have been without that line, so the rejection ends nothing. *)
Theorem validate_name_class :
  (forall s, matchesNameClass s = true -> validate s = VTrue)
  /\ (forall s, matchesNameClass s = false -> s <> "." ->
        validate s = VMessage nameErrorMessage)
  /\ (forall line rest, line <> "" -> matchesNameClass line = false -> line <> "." ->
        Sim.inquirerInput projectNameQuestion (line :: rest)
        = let '(final, rest', messages) := Sim.inquirerInput projectNameQuestion rest in
          (final, rest', nameErrorMessage :: messages))
  /\ (forall w line, line <> "" -> matchesNameClass line = false -> line <> "." ->
        runScript Sim.handler (typing (line :: Sim.typed w) w) []
        = runScript Sim.handler w []).
Proof.
  split; [exact validate_accepts|]. split; [exact validate_rejects|].
  split; [exact rejected_line_is_asked_again | exact rejected_line_changes_nothing].
Qed.

Lemma validate_name_class_witness :
  validate "my-app_2" = VTrue
  /\ validate "my app" = VMessage nameErrorMessage
  /\ Sim.inquirerInput projectNameQuestion ["my app"; "demo"]
     = ("demo", [], [nameErrorMessage])
  /\ runScript Sim.handler (typing ["my app"; "demo"] pipWorld) []
     = runScript Sim.handler (typing ["demo"] pipWorld) []
  /\ snd (runScript Sim.handler (typing ["demo"] pipWorld) []) = 0%Z.
Proof.
  destruct validate_name_class as (Hacc & Hrej & Hloop & Hrun).
  split; [apply Hacc; reflexivity|].
  split; [apply Hrej; [reflexivity | discriminate]|].
  split; [rewrite (Hloop "my app" ["demo"]);
          [reflexivity | discriminate | reflexivity | discriminate]|].
  split; [|vm_compute; reflexivity].
  apply (Hrun (typing ["demo"] pipWorld) "my app"); [discriminate | reflexivity | discriminate].
Defined.

(** ** Running programs step by step *)

Section Runs.
Context {W : Type} (h : Handler W).

Lemma interp_Ret_inv {A : Type} (a : A) w t o w' :
  interp h (Ret a) w = (t, o, w') -> t = [] /\ o = Returned a /\ w' = w.
Proof. cbn. intros H. inversion H. auto. Qed.

Lemma interp_Throw_inv {A : Type} e w t (o : Outcome A) w' :
  interp h (Throw e) w = (t, o, w') -> t = [] /\ o = Thrown e /\ w' = w.
Proof. cbn. intros H. inversion H. auto. Qed.

Lemma interp_Exit_inv {A : Type} s w t (o : Outcome A) w' :
  interp h (Exit s) w = (t, o, w') -> t = [] /\ o = Exited s /\ w' = w.
Proof. cbn. intros H. inversion H. auto. Qed.

Lemma interp_Vis_inv {A : Type} c (k : Reply c -> Prog A) w t o w' :
  interp h (Vis c k) w = (t, o, w') ->
  exists r w1 t1, h c w = (r, w1) /\ interp h (k r) w1 = (t1, o, w') /\ t = Did c r :: t1.
Proof.
  cbn. destruct (h c w) as [r w1].
  destruct (interp h (k r) w1) as [[t1 o1] w2] eqn:E.
  intros H. inversion H. subst. exists r, w1, t1. auto.
Qed.

Lemma interp_bind {A B : Type} (m : Prog A) (f : A -> Prog B) w :
  interp h (bind m f) w =
  let '(t1, o1, w1) := interp h m w in
  match o1 with
  | Returned a => let '(t2, o2, w2) := interp h (f a) w1 in ((t1 ++ t2)%list, o2, w2)
  | Thrown e => (t1, Thrown e, w1)
  | Exited s => (t1, Exited s, w1)
  end.
Proof.
  revert w. induction m as [a|e|s|c k IH]; intros w; cbn.
  - now destruct (interp h (f a) w) as [[t2 o2] w2].
  - reflexivity.
  - reflexivity.
  - destruct (h c w) as [r w1]. rewrite IH.
    destruct (interp h (k r) w1) as [[t1 o1] w2].
    destruct o1; [|reflexivity|reflexivity].
    now destruct (interp h (f a) w2) as [[t2 o2] w3].
Qed.

End Runs.

(** What keeps a program from showing its next call. *)
Ltac blocker m :=
  lazymatch m with
  | bind ?m1 _ => blocker m1
  | tryCatch ?m1 _ => blocker m1
  | when ?b _ => blocker b
  | orThrow ?r => blocker r
  | (if ?b then _ else _) => blocker b
  | negb ?b => blocker b
  | andb ?b _ => blocker b
  | orb ?b _ => blocker b
  | (match ?x with Some _ => _ | None => _ end) => blocker x
  | (match ?x with Resolved _ => _ | Rejected _ => _ end) => blocker x
  | (match ?x with inl _ => _ | inr _ => _ end) => blocker x
  | _ => lazymatch type of m with
         | Prog _ => fail "stuck on a program"
         | _ => constr:(m)
         end
  end.

Ltac prog_cbn H :=
  cbn [bind tryCatch call when consoleLog consoleError execa existsSync readdirSync
       orThrow mkdirSync writeFileSync chdir promptInput promptList runCommand run
       checkCommandAvailable unexpected negb andb orb String.eqb Ascii.eqb Bool.eqb] in H.

(** One step of a run [H : interp h m w = (t, o, w')]: the next call and
    its answer, or a case distinction on what the program waits for. *)
Ltac exec1 H :=
  prog_cbn H;
  lazymatch type of H with
  | interp _ (Ret _) _ = _ =>
      apply interp_Ret_inv in H; destruct H as (-> & -> & ->)
  | interp _ (Throw _) _ = _ =>
      apply interp_Throw_inv in H; destruct H as (-> & -> & ->)
  | interp _ (Exit _) _ = _ =>
      apply interp_Exit_inv in H; destruct H as (-> & -> & ->)
  | interp _ (Vis _ _) _ = _ =>
      let r := fresh "r" in
      let w := fresh "w" in
      let t := fresh "t" in
      let E := fresh "E" in
      apply interp_Vis_inv in H; destruct H as (r & w & t & E & H & ->);
      cbn [Reply] in r; clear E;
      lazymatch type of r with
      | unit => destruct r
      | _ => idtac
      end
  | interp _ ?m _ = _ =>
      let b := blocker m in
      first [ is_var b; destruct b | let E := fresh "E" in destruct b eqn:E ]
  end.

Ltac exec H := repeat exec1 H.

(** The same with the goal folded into a postcondition of the trace and
    the outcome, so that the steps do not rewrite in it. *)
Ltac exec_goal H :=
  match type of H with
  | _ = (?t, ?o, _) =>
      pattern t, o;
      match goal with
      | |- ?Q t o =>
          let post := fresh "post" in
          set (post := Q); exec H; subst post; cbv beta
      end
  end.

(** The run of the whole script behind [runScript]. *)
Ltac start H Hrun :=
  unfold runScript in H;
  match type of H with
  | context [interp ?h ?m ?w] =>
      let t := fresh "t" in
      let o := fresh "o" in
      let w' := fresh "w" in
      destruct (interp h m w) as [[t o] w'] eqn:Hrun
  end;
  injection H as <- <-.

Lemma pick_In (choices : list string) (cursor : nat) (choice : string) :
  pick choices cursor = Some choice -> In choice choices.
Proof. unfold pick. apply nth_error_In. Qed.

Lemma isENOENT_true (e : JsError) : isENOENT e = true <-> code e = Some "ENOENT".
Proof.
  unfold isENOENT. destruct (code e) as [c|].
  - rewrite String.eqb_eq. split; congruence.
  - split; discriminate.
Qed.

(** ** The availability prober *)

(** C6.  [checkCommandAvailable] makes one silent version query and returns
    a boolean, true exactly when the query succeeded; it neither throws nor
    ends the process, whatever the query does. *)
Theorem checkCommandAvailable_returns_boolean
    {W : Type} (h : Handler W) (w : W) (command : string) :
  interp h (checkCommandAvailable command) w
  = let (r, w1) := h (Execa command ["--version"] (mkOptions Ignore None)) w in
    ([Did (Execa command ["--version"] (mkOptions Ignore None)) r],
     Returned (match r with Resolved _ => true | Rejected _ => false end),
     w1).
Proof.
  unfold checkCommandAvailable. cbn.
  destruct (h (Execa command ["--version"] (mkOptions Ignore None)) w) as [r w1].
  destruct r; reflexivity.
Qed.

(** ** The process runner *)

Lemma diagnostic_cases (command : string) (e : JsError) :
  (code e = Some "ENOENT" -> diagnostic command e = notFoundMessage command)
  /\ (code e <> Some "ENOENT" -> diagnostic command e = "Error: " ++ message e).
Proof.
  unfold diagnostic. split.
  - intros Hcode. apply isENOENT_true in Hcode. now rewrite Hcode.
  - intros Hcode. destruct (isENOENT e) eqn:E; [|reflexivity].
    apply isENOENT_true in E. contradiction.
Qed.

(** A rejected command, whatever is to follow it: the announcement, the one
    spawn, the diagnostic, and the end of the process. *)
Lemma runCommand_rejected
    {W B : Type} (h : Handler W) (w w2 : W)
    (command : string) (args : list string) (description : string)
    (options : option string) (next : option string -> Prog B) (e : JsError) :
  h (Execa command args (mkOptions Inherit options))
    (snd (h (ConsoleLog (nl ++ "Running: " ++ description ++ "...")) w))
  = (Rejected e, w2) ->
  interp h (stdout <- runCommand command args description options ;; next stdout) w
  = ([Did (ConsoleLog (nl ++ "Running: " ++ description ++ "...")) tt;
      Did (Execa command args (mkOptions Inherit options)) (Rejected e);
      Did (ConsoleError (diagnostic command e)) tt],
     Exited 1%Z,
     snd (h (ConsoleError (diagnostic command e)) w2)).
Proof.
  intros Hfail. unfold runCommand, diagnostic.
  set (running := nl ++ "Running: " ++ description ++ "...") in *.
  cbn [interp bind tryCatch call consoleLog consoleError execa].
  destruct (h (ConsoleLog running) w) as [[] w1].
  cbn [snd] in Hfail. rewrite Hfail.
  cbn [interp bind tryCatch call consoleLog consoleError].
  destruct (isENOENT e);
    cbn [interp bind tryCatch call consoleLog consoleError];
    match goal with
    | |- context [h (ConsoleError ?d) w2] => now destruct (h (ConsoleError d) w2) as [[] w3]
    end.
Qed.

(** ** The project name *)

Lemma getProjectName_argument {W : Type} (h : Handler W) (w : W) (a : string) (rest : list string) :
  a <> "" -> interp h (getProjectName (a :: rest)) w = ([], Returned a, w).
Proof.
  intros Ha. apply String.eqb_neq in Ha.
  unfold getProjectName. cbn [nth_error truthy]. rewrite Ha. reflexivity.
Qed.

Lemma getProjectName_prompt {W : Type} (h : Handler W) (w : W) (args : list string) :
  truthy (nth_error args 0) = false ->
  interp h (getProjectName args) w
  = let (answer, w1) := h (PromptInput projectNameQuestion) w in
    ([Did (PromptInput projectNameQuestion) answer], Returned answer, w1).
Proof.
  intros Hfalsy. unfold getProjectName. rewrite Hfalsy.
  cbn [negb promptInput call interp].
  now destruct (h (PromptInput projectNameQuestion) w) as [answer w1].
Qed.

(** ** The opening of a run *)

Lemma pick_Some (choices : list string) (cursor : nat) :
  choices <> [] -> exists choice, pick choices cursor = Some choice.
Proof.
  intros Hne. unfold pick.
  destruct (nth_error choices (cursor mod length choices)) as [x|] eqn:E; [eauto|].
  apply nth_error_None in E.
  assert (length choices <> 0) by (destruct choices; [congruence | discriminate]).
  pose proof (Nat.mod_upper_bound cursor (length choices) H). lia.
Qed.

Lemma language_cases (cursor : nat) (language : string) :
  pick (listChoices languageQuestion) cursor = Some language ->
  language = "Python" \/ language = "TypeScript" \/ language = "Ruby".
Proof.
  intros H. apply pick_In in H. cbn in H. intuition auto.
Qed.

Lemma manager_pick_Some (cursor c2 : nat) (language : string) :
  pick (listChoices languageQuestion) cursor = Some language ->
  exists pm, pick (listChoices (packageManagerQuestion language)) c2 = Some pm.
Proof.
  intros H. apply language_cases in H as [-> | [-> | ->]]; apply pick_Some; discriminate.
Qed.

Section Opening.
Context {W : Type} (h : Handler W).

Lemma script_help (w : W) (args : list string) t o w' :
  interp h (script args) w = (t, o, w') ->
  helpRequested args = true ->
  o = Exited 0%Z /\ forallb isLog t = true.
Proof.
  intros Hrun Hhelp. unfold helpRequested in Hhelp.
  unfold script, main, showHelp in Hrun.
  exec1 Hrun. rewrite Hhelp in Hrun. exec Hrun. split; reflexivity.
Qed.

Lemma script_opening (w : W) (args : list string) t o w' :
  interp h (script args) w = (t, o, w') ->
  helpRequested args = false ->
  exists projectName targetDir c1 c2 language packageManager w1 t1,
    t = (opening args projectName targetDir c1 c2 language ++ t1)%list
    /\ (truthy (nth_error args 0) = true -> nth_error args 0 = Some projectName)
    /\ pick (listChoices languageQuestion) c1 = Some language
    /\ pick (listChoices (packageManagerQuestion language)) c2 = Some packageManager
    /\ interp h
         (tryCatch
            (scaffold (usesCurrentDir args projectName) projectName targetDir
               language packageManager)
            unexpected)
         w1
       = (t1, o, w').
Proof.
  intros Hrun Hhelp. unfold helpRequested in Hhelp.
  unfold script, main in Hrun.
  exec1 Hrun. rewrite Hhelp in Hrun.
  unfold getProjectName in Hrun.
  exec Hrun; try prog_cbn Hrun.
  all: try match goal with
       | E : pick (listChoices languageQuestion) ?c = None |- _ =>
           exfalso;
           destruct (pick_Some (listChoices languageQuestion) c) as [x Hx];
           [discriminate | congruence]
       | E1 : pick (listChoices languageQuestion) ?c1 = Some ?l,
         E2 : pick (listChoices (packageManagerQuestion ?l)) ?c2 = None |- _ =>
           exfalso;
           destruct (manager_pick_Some c1 c2 l E1) as [x Hx]; congruence
       end.
  all: match goal with
       | Hrun : interp h (tryCatch (scaffold ?u ?pn ?td ?l ?pm) unexpected) ?w1 = (?t1, _, _),
         E1 : pick (listChoices languageQuestion) ?c1 = Some ?l,
         E2 : pick _ ?c2 = Some ?pm |- _ =>
           exists pn, td, c1, c2, l, pm, w1, t1
       end.
  all: unfold opening, askedName, lookedUp.
  all: repeat match goal with
         | E : truthy _ = _ |- _ => rewrite E
         | E : usesCurrentDir _ _ = _ |- _ => rewrite E
         end.
  all: repeat split; try assumption; try discriminate.
  all: intros _; destruct (nth_error args 0); [reflexivity | discriminate].
Qed.
End Opening.

Lemma logs_recognise_nothing {B : Type} (f : Obs -> option B) (t : list Obs) :
  (forall o, isLog o = true -> f o = None) ->
  forallb isLog t = true -> firstSome f t = None.
Proof.
  intros Hf. induction t as [|o t IH]; cbn; [reflexivity|].
  intros H. apply andb_prop in H as [Ho Ht]. rewrite (Hf o Ho). auto.
Qed.

Lemma listPromptOf_log (name : string) (o : Obs) : isLog o = true -> listPromptOf name o = None.
Proof. destruct o as [[] r]; cbn; congruence. Qed.

(** Reading the explicit part of a trace. *)
Ltac trace_cbn :=
  cbn [selected offered projectNameOf firstSome listPromptOf inputOf option_map fst snd
       listName listChoices languageQuestion packageManagerQuestion
       probe probeOf probedMissing probedPresent probedFailing isVersionQuery stdio
       isExeca isProbe isMkdir mutating untouched forallb existsb
       cwdOf existsOf readdirOf afterChdir foundInTarget failedStep allStepsSucceeded
       enteredTarget performed creates sameArgs targetDirOf hd_error firstFailure
       steps stepOf app andb orb negb implb String.eqb Ascii.eqb Bool.eqb] in *.

(** The four shapes of the opening. *)
Ltac open_up :=
  unfold opening, askedName, lookedUp in *;
  match goal with
  | |- context [truthy (nth_error ?args 0)] => destruct (truthy (nth_error args 0)) eqn:?
  | H : context [truthy (nth_error ?args 0)] |- _ => destruct (truthy (nth_error args 0)) eqn:?
  end;
  match goal with
  | |- context [usesCurrentDir ?args ?n] => destruct (usesCurrentDir args n) eqn:?
  | H : context [usesCurrentDir ?args ?n] |- _ => destruct (usesCurrentDir args n) eqn:?
  end;
  trace_cbn.

(** ** The project name given on the command line *)

Lemma argument_is_looked_up
    {W : Type} (h : Handler W) (w : W) (a : string) (rest : list string) t status :
  a <> "" ->
  runScript h w (a :: rest) = (t, status) ->
  helpRequested (a :: rest) = false ->
  exists dir, nth_error t 1 = Some (lookedUp (usesCurrentDir (a :: rest) a) a dir).
Proof.
  intros Ha H Hhelp. start H Hrun.
  destruct (script_opening h w (a :: rest) _ _ _ Hrun Hhelp)
    as (projectName & targetDir & c1 & c2 & language & pm & w1 & t1
        & -> & Hname & _).
  apply String.eqb_neq in Ha.
  assert (Htruthy : truthy (nth_error (a :: rest) 0) = true) by (cbn; now rewrite Ha).
  specialize (Hname Htruthy). injection Hname as <-.
  exists targetDir. unfold opening, askedName. rewrite Htruthy. reflexivity.
Qed.

(** C10, as the code has it.  A first command-line argument that is not
    the empty string is the project name as it stands: no prompt is shown
    and [validate] is never consulted, whatever the argument contains, and
    the first thing the run does after its greeting is to look up the target
    directory for that name.  The prompt, with its [validate] callback, is
    used exactly when [args[0]] is missing or empty. *)
Theorem argument_name_is_not_validated
    {W : Type} (h : Handler W) (w : W) (a : string) (rest : list string) :
  a <> "" ->
  interp h (getProjectName (a :: rest)) w = ([], Returned a, w)
  /\ (forall t status,
        runScript h w (a :: rest) = (t, status) ->
        helpRequested (a :: rest) = false ->
        exists dir, nth_error t 1 = Some (lookedUp (usesCurrentDir (a :: rest) a) a dir))
  /\ (forall args, truthy (nth_error args 0) = false ->
        interp h (getProjectName args) w
        = let (answer, w1) := h (PromptInput projectNameQuestion) w in
          ([Did (PromptInput projectNameQuestion) answer], Returned answer, w1))
  /\ inputValidate projectNameQuestion = validate.
Proof.
  intros Ha. split; [now apply getProjectName_argument|].
  split; [intros t status; now apply argument_is_looked_up|].
  split; [apply getProjectName_prompt | reflexivity].
Qed.

Lemma argument_name_is_not_validated_witness :
  validate "my app!" = VMessage nameErrorMessage
  /\ interp Sim.handler (getProjectName ["my app!"]) pipWorld
     = ([], Returned "my app!", pipWorld)
  /\ nth_error (fst (runScript Sim.handler pipWorld ["my app!"])) 1
     = Some (Did (PathResolve "my app!") "/home/user/my app!").
Proof.
  split; [reflexivity|].
  destruct (argument_name_is_not_validated Sim.handler pipWorld "my app!" [])
    as (Hname & Hlookup & _); [discriminate|].
  split; [exact Hname|].
  destruct (Hlookup (fst (runScript Sim.handler pipWorld ["my app!"]))
              (snd (runScript Sim.handler pipWorld ["my app!"])))
    as [dir Hdir].
  - now destruct (runScript Sim.handler pipWorld ["my app!"]).
  - reflexivity.
  - rewrite Hdir.
    pose proof (f_equal (fun x => match x with
                                  | Some o => targetDirOf o
                                  | None => None
                                  end) Hdir) as Hd.
    vm_compute in Hd. injection Hd as <-. reflexivity.
Defined.

(** C10 as stated fails for an argument that is present but empty: the
    script then asks for the name, and the name is the prompt's answer. *)
Lemma empty_argument_is_prompted :
  interp Sim.handler (getProjectName [""]) typingWorld
  = ([Did (PromptInput projectNameQuestion) "demo"],
     Returned "demo",
     Sim.mkWorld [] [0; 0] ["pip"; "touch"; "baml-cli"] [] ["/home/user"] "/home/user"
       [nameErrorMessage])
  /\ nth_error (fst (runScript Sim.handler typingWorld [""])) 2
     = Some (Did (PathResolve "demo") "/home/user/demo")
  /\ ~ (forall a rest,
          interp Sim.handler (getProjectName (a :: rest)) typingWorld
          = ([], Returned a, typingWorld)).
Proof.
  split; [reflexivity|]. split; [vm_compute; reflexivity|].
  intros H. specialize (H "" []). discriminate H.
Qed.

(** ** The ecosystem selector *)

(** C3.  In every run that gets to choose a language, the package-manager
    prompt offers the managers of that language and no others: pip, poetry
    and uv for Python; npm, pnpm, yarn, deno and bun for TypeScript; bundle
    for Ruby.  The manager selected is one of those offered. *)
Theorem package_manager_prompt_offers_fixed_subset
    {W : Type} (h : Handler W) (w : W) (args : list string)
    (t : list Obs) (status : Z) (language : string) :
  runScript h w args = (t, status) ->
  selected "language" t = Some language ->
  exists choices,
    offered "packageManager" t = Some choices
    /\ ((language = "Python" /\ choices = ["pip"; "poetry"; "uv"])
        \/ (language = "TypeScript" /\ choices = ["npm"; "pnpm"; "yarn"; "deno"; "bun"])
        \/ (language = "Ruby" /\ choices = ["bundle"]))
    /\ exists packageManager,
         selected "packageManager" t = Some packageManager /\ In packageManager choices.
Proof.
  intros H Hsel. start H Hrun.
  destruct (helpRequested args) eqn:Hhelp.
  - destruct (script_help h w args _ _ _ Hrun Hhelp) as [_ Hlogs].
    unfold selected in Hsel.
    rewrite (logs_recognise_nothing _ _ (listPromptOf_log "language") Hlogs) in Hsel.
    discriminate.
  - destruct (script_opening h w args _ _ _ Hrun Hhelp)
      as (projectName & targetDir & c1 & c2 & language' & packageManager & w1 & t1
          & -> & _ & Hlanguage & Hmanager & _).
    open_up.
    all: rewrite Hlanguage in Hsel; injection Hsel as ->.
    all: exists (listChoices (packageManagerQuestion language)).
    all: split; [reflexivity|].
    all: split; [|exists packageManager; split; [exact Hmanager | exact (pick_In _ _ _ Hmanager)]].
    all: destruct (language_cases _ _ Hlanguage) as [-> | [-> | ->]]; cbn; auto.
Qed.

Lemma package_manager_prompt_offers_fixed_subset_witness :
  exists choices,
    offered "packageManager" (fst (runScript Sim.handler yarnlessWorld ["demo"])) = Some choices
    /\ (("TypeScript" = "Python" /\ choices = ["pip"; "poetry"; "uv"])
        \/ ("TypeScript" = "TypeScript" /\ choices = ["npm"; "pnpm"; "yarn"; "deno"; "bun"])
        \/ ("TypeScript" = "Ruby" /\ choices = ["bundle"]))
    /\ exists packageManager,
         selected "packageManager" (fst (runScript Sim.handler yarnlessWorld ["demo"]))
         = Some packageManager
         /\ In packageManager choices.
Proof.
  apply (package_manager_prompt_offers_fixed_subset Sim.handler yarnlessWorld ["demo"]
           _ (snd (runScript Sim.handler yarnlessWorld ["demo"])) "TypeScript").
  - now destruct (runScript Sim.handler yarnlessWorld ["demo"]).
  - vm_compute. reflexivity.
Defined.

Lemma nodeFamily_cases (pm : string) :
  includes ["npm"; "pnpm"; "yarn"] pm = true -> pm = "npm" \/ pm = "pnpm" \/ pm = "yarn".
Proof.
  unfold includes. cbn [existsb]. rewrite !orb_true_iff, !String.eqb_eq. intuition discriminate.
Qed.

Ltac trace_unfold :=
  unfold selected, offered, projectNameOf, probedMissing, probedPresent, probedFailing,
    probe, foundInTarget, untouched, allStepsSucceeded, enteredTarget, probesOnly,
    performed in *.

Ltac trace_simpl :=
  trace_unfold;
  repeat (progress trace_cbn
          || match goal with
             | |- context [String.eqb ?x ?x] => rewrite (String.eqb_refl x)
             | H : context [String.eqb ?x ?x] |- _ => rewrite (String.eqb_refl x) in H
             end).

(** ** The availability check

    For npm, pnpm and yarn the check falls back on node, so a missing
    manager is only noticed when node is missing too. *)

(** C1, as the code has it.  In every run in which the version probe of the
    selected package manager does not succeed (a missing executable is the
    case in point: whatever is tried with it fails) and, for npm, pnpm and
    yarn, the probe of node does not succeed either, the probe of the manager
    has been made and has failed, the run ends with status 1 after printing
    that the manager is not installed and where to get it, and nothing has
    been created, written or started: no mkdir, no chdir, no scaffolding
    command. *)
Theorem missing_package_manager_halts
    {W : Type} (h : Handler W) (w : W) (args : list string)
    (t : list Obs) (status : Z) (packageManager : string) :
  runScript h w args = (t, status) ->
  selected "packageManager" t = Some packageManager ->
  probedPresent packageManager t = false ->
  (includes ["npm"; "pnpm"; "yarn"] packageManager = true -> probedPresent "node" t = false) ->
  probedFailing packageManager t = true
  /\ status = 1%Z
  /\ printed (notInstalledMessage packageManager) t
  /\ printed (installLink packageManager ++ nl) t
  /\ untouched t = true.
Proof.
  intros H Hsel Habsent Hnode. start H Hrun.
  destruct (helpRequested args) eqn:Hhelp.
  - destruct (script_help h w args _ _ _ Hrun Hhelp) as [_ Hlogs].
    unfold selected in Hsel.
    rewrite (logs_recognise_nothing _ _ (listPromptOf_log "packageManager") Hlogs) in Hsel.
    discriminate.
  - destruct (script_opening h w args _ _ _ Hrun Hhelp)
      as (projectName & targetDir & c1 & c2 & language & pm & w1 & t1
          & -> & _ & Hlanguage & Hmanager & Hrest).
    unfold scaffold, checkPackageManager in Hrest.
    exec Hrest; try prog_cbn Hrest.
    all: open_up.
    all: rewrite Hmanager in Hsel; injection Hsel as <-.
    all: trace_simpl.
    all: try discriminate.
    all: try (exfalso; specialize (Hnode E);
              destruct (nodeFamily_cases pm E) as [-> | [-> | ->]];
              trace_simpl; discriminate).
    all: repeat split; try reflexivity; unfold printed; cbn [In]; auto 20.
Qed.

Lemma missing_package_manager_halts_witness :
  probedFailing "pip" (fst (runScript Sim.handler noPipWorld ["demo"])) = true
  /\ snd (runScript Sim.handler noPipWorld ["demo"]) = 1%Z
  /\ printed (notInstalledMessage "pip") (fst (runScript Sim.handler noPipWorld ["demo"]))
  /\ printed (installLink "pip" ++ nl) (fst (runScript Sim.handler noPipWorld ["demo"]))
  /\ untouched (fst (runScript Sim.handler noPipWorld ["demo"])) = true.
Proof.
  apply (missing_package_manager_halts Sim.handler noPipWorld ["demo"] _ _ "pip").
  - now destruct (runScript Sim.handler noPipWorld ["demo"]).
  - vm_compute. reflexivity.
  - vm_compute. reflexivity.
  - intros H. vm_compute in H. discriminate H.
Defined.

(** C1 as stated fails: yarn is missing from the search path, node is
    there, and the run creates the directory and starts a command before it
    ends. *)
Lemma missing_yarn_is_not_noticed :
  selected "packageManager" (fst (runScript Sim.handler yarnlessWorld ["demo"])) = Some "yarn"
  /\ probedMissing "yarn" (fst (runScript Sim.handler yarnlessWorld ["demo"])) = true
  /\ existsb isMkdir (fst (runScript Sim.handler yarnlessWorld ["demo"])) = true
  /\ steps (fst (runScript Sim.handler yarnlessWorld ["demo"]))
     = [("yarn", ["add"; "typescript"; "--dev"])]
  /\ untouched (fst (runScript Sim.handler yarnlessWorld ["demo"])) = false.
Proof. vm_compute. repeat split; reflexivity. Qed.

Lemma usesCurrentDir_intro (args : list string) (name : string) :
  includes args "--use-current-dir" = true \/ includes args "-." = true \/ name = "." ->
  usesCurrentDir args name = true.
Proof.
  unfold usesCurrentDir. intros [H | [H | ->]].
  - rewrite H. now rewrite orb_true_r.
  - rewrite H. now rewrite orb_true_r.
  - reflexivity.
Qed.

(** ** The directory preconditions

    The availability check comes before the look at the directory, and the
    help flag before either. *)

(** C2, as the code has it.  In every run without [-h] or [--help] that uses
    the current directory ([--use-current-dir], [-.] or the project name
    ["."]) and finds it existing and not empty, the run ends with status 1;
    nothing has been created, written or started, and the only external
    commands that ran are the silent version queries of the availability
    check. *)
Theorem nonempty_current_directory_halts
    {W : Type} (h : Handler W) (w : W) (args : list string) (t : list Obs) (status : Z) :
  runScript h w args = (t, status) ->
  helpRequested args = false ->
  includes args "--use-current-dir" = true \/ includes args "-." = true
  \/ projectNameOf args t = Some "." ->
  (forall dir, firstSome cwdOf t = Some dir -> foundNonEmpty dir t) ->
  status = 1%Z /\ untouched t = true /\ probesOnly t = true.
Proof.
  intros H Hhelp Hflag Hdir. start H Hrun.
  destruct (script_opening h w args _ _ _ Hrun Hhelp)
    as (projectName & targetDir & c1 & c2 & language & pm & w1 & t1
        & -> & Hname & Hlanguage & Hmanager & Hrest).
  assert (Huse : usesCurrentDir args projectName = true).
  { apply usesCurrentDir_intro.
    destruct Hflag as [Hf | [Hf | Hf]]; auto.
    right; right. unfold opening, askedName, projectNameOf in Hf.
    destruct (truthy (nth_error args 0)) eqn:E.
    - specialize (Hname eq_refl). congruence.
    - cbn in Hf. congruence. }
  unfold opening, askedName, lookedUp in *. rewrite Huse in *.
  unfold scaffold, checkPackageManager, prepareDirectory in Hrest.
  exec Hrest; try prog_cbn Hrest.
  all: destruct (truthy (nth_error args 0)) eqn:Htruthy.
  all: unfold probesOnly, foundNonEmpty in *; trace_simpl.
  all: try (repeat split; reflexivity).
  all: specialize (Hdir targetDir eq_refl); trace_simpl; destruct Hdir as [Hex Hls].
  all: try congruence.
  all: try (destruct (Hls _ eq_refl) as (e & es & He); inversion He; subst; cbn in *; discriminate).
Qed.

Lemma nonempty_current_directory_halts_witness :
  snd (runScript Sim.handler busyWorld ["demo"; "--use-current-dir"]) = 1%Z
  /\ untouched (fst (runScript Sim.handler busyWorld ["demo"; "--use-current-dir"])) = true
  /\ probesOnly (fst (runScript Sim.handler busyWorld ["demo"; "--use-current-dir"])) = true.
Proof.
  apply (nonempty_current_directory_halts Sim.handler busyWorld ["demo"; "--use-current-dir"]).
  - now destruct (runScript Sim.handler busyWorld ["demo"; "--use-current-dir"]).
  - reflexivity.
  - left. reflexivity.
  - intros dir Hcwd. vm_compute in Hcwd. injection Hcwd as <-. split.
    + vm_compute. discriminate.
    + intros r Hr. vm_compute in Hr. injection Hr as <-. eauto.
Defined.

(** C2 as stated fails: in a current directory that holds a file, the run
    with [--use-current-dir] executes an external command, the version query
    of pip, before it ends with status 1; and with [--help] added it ends
    with status 0. *)
Lemma probe_runs_before_directory_check :
  firstSome cwdOf (fst (runScript Sim.handler busyWorld ["demo"; "--use-current-dir"]))
  = Some "/home/user"
  /\ firstSome (readdirOf "/home/user")
       (fst (runScript Sim.handler busyWorld ["demo"; "--use-current-dir"]))
     = Some (inr ["notes.txt"])
  /\ snd (runScript Sim.handler busyWorld ["demo"; "--use-current-dir"]) = 1%Z
  /\ existsb isExeca (fst (runScript Sim.handler busyWorld ["demo"; "--use-current-dir"])) = true
  /\ probe "pip" (fst (runScript Sim.handler busyWorld ["demo"; "--use-current-dir"]))
     = Some (Resolved None)
  /\ snd (runScript Sim.handler busyWorld ["demo"; "--use-current-dir"; "--help"]) = 0%Z.
Proof. vm_compute. repeat split; reflexivity. Qed.

(** ** From the opening to the commands *)

Lemma endsWith_In (suffix t : list Obs) (o : Obs) :
  endsWith suffix t -> In o suffix -> In o t.
Proof. induction 1; cbn; auto. Qed.

Section Commands.
Context {W : Type} (h : Handler W).

Lemma script_commands (w : W) (args : list string) t o w' :
  interp h (script args) w = (t, o, w') ->
  helpRequested args = false ->
  (enteredTarget t = false /\ afterChdir t = [] /\ steps t = [] /\ firstFailure t = None)
  \/ exists targetDir language packageManager w2 t2,
       interp h (tryCatch (commandsAndClosing language packageManager targetDir) unexpected) w2
       = (t2, o, w')
       /\ endsWith t2 t
       /\ afterChdir t = t2
       /\ steps t = steps t2
       /\ allStepsSucceeded t = allStepsSucceeded t2
       /\ (forall c, performed c t = performed c t2)
       /\ firstFailure t = firstFailure t2
       /\ selected "language" t = Some language
       /\ selected "packageManager" t = Some packageManager
       /\ In packageManager (listChoices (packageManagerQuestion language)).
Proof.
  intros Hrun Hhelp.
  destruct (script_opening h w args _ _ _ Hrun Hhelp)
    as (projectName & targetDir & c1 & c2 & language & pm & w1 & t1
        & -> & _ & Hlanguage & Hmanager & Hrest).
  clear Hrun.
  pose proof (pick_In _ _ _ Hmanager) as Hin.
  unfold scaffold, checkPackageManager, prepareDirectory in Hrest.
  fold (commandsAndClosing language pm targetDir) in Hrest.
  exec Hrest; try prog_cbn Hrest.
  all: open_up; trace_simpl.
  all: try (left; repeat split; reflexivity).
  all: right.
  all: match goal with
       | Hrest : interp h (tryCatch (commandsAndClosing ?l ?pm ?td) unexpected) ?w2 = (?t2, _, _)
         |- _ => exists td, l, pm, w2, t2
       end.
  all: repeat split; try assumption; try reflexivity.
  all: repeat constructor.
Qed.
End Commands.


Lemma manager_language (language pm : string) :
  In pm (listChoices (packageManagerQuestion language)) ->
  (language = "Python" /\ In pm ["pip"; "poetry"; "uv"])
  \/ (language = "TypeScript" /\ In pm ["npm"; "pnpm"; "yarn"; "deno"; "bun"])
  \/ (language = "Ruby" /\ In pm ["bundle"]).
Proof.
  unfold packageManagerQuestion, packageManagerChoices. cbn [listChoices].
  destruct (language =? "Python") eqn:E1; [apply String.eqb_eq in E1; auto|].
  destruct (language =? "TypeScript") eqn:E2; [apply String.eqb_eq in E2; auto|].
  destruct (language =? "Ruby") eqn:E3; [apply String.eqb_eq in E3; auto|].
  intros [].
Qed.

Lemma selected_help {W : Type} (h : Handler W) (w : W) (args : list string) t o w' name :
  interp h (script args) w = (t, o, w') ->
  helpRequested args = true ->
  selected name t = None.
Proof.
  intros Hrun Hhelp.
  destruct (script_help h w args _ _ _ Hrun Hhelp) as [_ Hlogs].
  unfold selected.
  now rewrite (logs_recognise_nothing _ _ (listPromptOf_log name) Hlogs).
Qed.

(** ** The Python/pip scenario *)



(** ** Going through the package managers *)

Ltac concretise Hin :=
  cbn [In] in Hin;
  repeat match type of Hin with
         | _ \/ _ => destruct Hin as [Hin | Hin]
         end;
  try contradiction; try discriminate Hin.


(** ** Node vouching for npm, pnpm and yarn *)

Section Vouching.
Context {W : Type} (h : Handler W).


End Vouching.



(** ** Failing commands *)

Lemma firstFailure_logs (t : list Obs) : forallb isLog t = true -> firstFailure t = None.
Proof.
  induction t as [|o t IH]; [reflexivity|].
  cbn [forallb]. intros H. apply andb_prop in H as [Ho Ht].
  destruct o as [[] r]; try discriminate Ho. cbn. auto.
Qed.

Lemma failed_step_ends_script
    {W : Type} (h : Handler W) (w : W) (args : list string) (t : list Obs) (status : Z)
    (command : string) (e : JsError) (rest : list Obs) :
  runScript h w args = (t, status) ->
  firstFailure t = Some (command, e, rest) ->
  rest = [Did (ConsoleError (diagnostic command e)) tt] /\ status = 1%Z.
Proof.
  intros H Hfail. start H Hrun.
  destruct (helpRequested args) eqn:Hhelp.
  { destruct (script_help h w args _ _ _ Hrun Hhelp) as [_ Hlogs].
    rewrite (firstFailure_logs _ Hlogs) in Hfail. discriminate. }
  destruct (script_commands h w args _ _ _ Hrun Hhelp)
    as [(_ & _ & _ & Hnone) | (targetDir & language & pm & w2 & t2 & Hrest & _ & _
                              & _ & _ & _ & Hsame & _ & _ & Hin)].
  { congruence. }
  rewrite Hsame in Hfail. clear Hrun Hsame.
  destruct (manager_language _ _ Hin) as [[-> Hpm] | [[-> Hpm] | [-> Hpm]]]; clear Hin.
  all: concretise Hpm; subst pm.
  all: unfold commandsAndClosing, executeCommands, setupPython, setupTypeScript, setupRuby in Hrest.
  all: revert Hfail; exec_goal Hrest; intros Hfail; trace_simpl; try discriminate Hfail.
  all: injection Hfail as <- <- <-.
  all: unfold diagnostic.
  all: match goal with E : isENOENT _ = _ |- _ => rewrite E end.
  all: split; reflexivity.
Qed.

(** The two diagnostics, letter by letter. *)
Lemma diagnostic_texts (command : string) (e : JsError) :
  (code e = Some "ENOENT" ->
   diagnostic command e
   = "Error: Command '" ++ command
     ++ "' not found. Please make sure it is installed and available in your PATH.")
  /\ (code e <> Some "ENOENT" -> diagnostic command e = "Error: " ++ message e).
Proof. exact (diagnostic_cases command e). Qed.

(** They are told apart, unless the tool itself says that it was not
    found, in the words of the script. *)
Lemma diagnostics_differ (command : string) (e e' : JsError) :
  code e = Some "ENOENT" ->
  code e' <> Some "ENOENT" ->
  diagnostic command e = diagnostic command e' ->
  message e'
  = "Command '" ++ command
    ++ "' not found. Please make sure it is installed and available in your PATH.".
Proof.
  intros He He' Hsame.
  rewrite (proj1 (diagnostic_texts command e) He) in Hsame.
  rewrite (proj2 (diagnostic_texts command e') He') in Hsame.
  cbn [append] in Hsame. injection Hsame as Hsame. symmetry. exact Hsame.
Qed.

(** C5.  When the executable of a command step fails (a non-zero exit or a
    spawn error), [runCommand] prints one diagnostic and ends the process
    with status 1: the command is started once, and whatever was to follow
    the step never runs.  So in every run of the script, the first command
    that fails is followed by its diagnostic and by nothing else, and the
    exit status is 1.  The diagnostic for [ENOENT] is "Error: Command
    '<command>' not found. Please make sure it is installed and available in
    your PATH."; for any other failure it is "Error: " followed by the
    message of the error; the two are the same text only when that message
    is itself the sentence "Command '<command>' not found. ..." *)
Theorem failed_step_ends_process {W : Type} (h : Handler W) (w : W) :
  (forall (B : Type) (w0 w2 : W) command args description options
          (next : option string -> Prog B) e,
      h (Execa command args (mkOptions Inherit options))
        (snd (h (ConsoleLog (nl ++ "Running: " ++ description ++ "...")) w0))
      = (Rejected e, w2) ->
      interp h (stdout <- runCommand command args description options ;; next stdout) w0
      = ([Did (ConsoleLog (nl ++ "Running: " ++ description ++ "...")) tt;
          Did (Execa command args (mkOptions Inherit options)) (Rejected e);
          Did (ConsoleError (diagnostic command e)) tt],
         Exited 1%Z,
         snd (h (ConsoleError (diagnostic command e)) w2)))
  /\ (forall args t status command e rest,
        runScript h w args = (t, status) ->
        firstFailure t = Some (command, e, rest) ->
        rest = [Did (ConsoleError (diagnostic command e)) tt] /\ status = 1%Z)
  /\ (forall command e,
        (code e = Some "ENOENT" ->
         diagnostic command e
         = "Error: Command '" ++ command
           ++ "' not found. Please make sure it is installed and available in your PATH.")
        /\ (code e <> Some "ENOENT" -> diagnostic command e = "Error: " ++ message e))
  /\ (forall command e e',
        code e = Some "ENOENT" ->
        code e' <> Some "ENOENT" ->
        diagnostic command e = diagnostic command e' ->
        message e'
        = "Command '" ++ command
          ++ "' not found. Please make sure it is installed and available in your PATH.").
Proof.
  split; [|split; [|split]].
  - intros B w0 w2 command args description options next e.
    apply runCommand_rejected.
  - intros args t status command e rest. apply failed_step_ends_script.
  - apply diagnostic_texts.
  - apply diagnostics_differ.
Qed.

Lemma failed_step_ends_process_witness :
  firstFailure (fst (runScript Sim.handler noCliWorld ["demo"]))
  = Some ("baml-cli", Sim.enoent "spawn baml-cli",
          [Did (ConsoleError
                  ("Error: Command 'baml-cli' not found. "
                   ++ "Please make sure it is installed and available in your PATH.")) tt])
  /\ steps (fst (runScript Sim.handler noCliWorld ["demo"]))
     = [("touch", ["requirements.txt"]); ("pip", ["install"; "baml-py"]); ("baml-cli", ["init"])]
  /\ snd (runScript Sim.handler noCliWorld ["demo"]) = 1%Z.
Proof.
  assert (Hrun : runScript Sim.handler noCliWorld ["demo"]
                 = (fst (runScript Sim.handler noCliWorld ["demo"]),
                    snd (runScript Sim.handler noCliWorld ["demo"])))
    by now destruct (runScript Sim.handler noCliWorld ["demo"]).
  destruct (failed_step_ends_process Sim.handler noCliWorld) as (_ & Hscript & _).
  destruct (firstFailure (fst (runScript Sim.handler noCliWorld ["demo"])))
    as [[[command e] rest]|] eqn:Hfirst; [|vm_compute in Hfirst; discriminate Hfirst].
  destruct (Hscript ["demo"] _ _ command e rest Hrun Hfirst) as [-> Hstatus].
  vm_compute in Hfirst. injection Hfirst as <- <-.
  split; [reflexivity|]. split; [vm_compute; reflexivity | exact Hstatus].
Defined.

(** * The rest of the script

    What the run does around the commands: the help flag, the questions,
    the directory, the plan of every package manager, and how a run ends. *)

(** ** Inside the target directory *)

Lemma valid_pair_cases (language pm : string) :
  In pm (listChoices (packageManagerQuestion language)) ->
  (language = "Python" /\ (pm = "pip" \/ pm = "poetry" \/ pm = "uv"))
  \/ (language = "TypeScript"
      /\ (pm = "npm" \/ pm = "pnpm" \/ pm = "yarn" \/ pm = "deno" \/ pm = "bun"))
  \/ (language = "Ruby" /\ pm = "bundle").
Proof.
  intros H. destruct (manager_language _ _ H) as [[-> Hpm] | [[-> Hpm] | [-> Hpm]]];
    cbn [In] in Hpm; intuition auto.
Qed.

Ltac solve_prefix_length :=
  first [ exists 0; vm_compute; reflexivity | exists 1; vm_compute; reflexivity
        | exists 2; vm_compute; reflexivity | exists 3; vm_compute; reflexivity
        | exists 4; vm_compute; reflexivity | exists 5; vm_compute; reflexivity
        | exists 6; vm_compute; reflexivity | exists 7; vm_compute; reflexivity ].

(** Both diagnostics of [runCommand] go to the standard error. *)
Lemma diagnostic_if (b : bool) (x y : string) :
  (if b then consoleError x else consoleError y) = consoleError (if b then x else y).
Proof. now destruct b. Qed.

(** The steps of a run, the two diagnostics taken as one. *)
Ltac exec_quick H :=
  repeat (prog_cbn H;
          lazymatch type of H with
          | context [isENOENT _] => rewrite ?diagnostic_if in H
          | _ => idtac
          end;
          exec1 H).

Ltac exec_quick_goal H :=
  match type of H with
  | _ = (?t, ?o, _) =>
      pattern t, o;
      match goal with
      | |- ?Q t o =>
          let post := fresh "post" in
          set (post := Q); exec_quick H; subst post; cbv beta
      end
  end.

Section CommandsOutcome.
Context {W : Type} (h : Handler W).

Lemma commands_outcome (w : W) (language pm targetDir : string) t o w' :
  In pm (listChoices (packageManagerQuestion language)) ->
  interp h (tryCatch (commandsAndClosing language pm targetDir) unexpected) w = (t, o, w') ->
  (exists n, steps t = firstn n (plan pm (foundAmong t)))
  /\ (o = Returned tt \/ o = Exited 1%Z)
  /\ (o = Returned tt ->
      steps t = plan pm (foundAmong t) /\ allStepsSucceeded t = true
      /\ endsWithLog nextStepsMessage t = true /\ printed allDoneMessage t)
  /\ (o = Exited 1%Z -> endsWithError t = true)
  /\ forallb (commandCall targetDir) t = true
  /\ forallb fixedCommandLine t = true.
Proof.
  intros Hin Hrest.
  destruct (valid_pair_cases _ _ Hin)
    as [[-> Hpm] | [[-> Hpm] | [-> ->]]]; clear Hin.
  all: repeat match type of Hpm with
              | _ \/ _ => destruct Hpm as [Hpm | Hpm]
              end; try subst pm.
  all: unfold commandsAndClosing, executeCommands, setupPython, setupTypeScript, setupRuby in Hrest.
  all: exec_quick_goal Hrest.
  all: trace_simpl.
  all: split; [solve_prefix_length|].
  all: split; [first [left; reflexivity | right; reflexivity]|].
  all: split;
    [intros Ho; first [discriminate Ho
                      | split; [vm_compute; reflexivity|];
                        split; [vm_compute; reflexivity|];
                        split; [vm_compute; reflexivity|];
                        unfold printed; cbn [In]; auto 60]|].
  all: split; [intros Ho; first [discriminate Ho | vm_compute; reflexivity]|].
  all: split; [cbn [forallb commandCall]; rewrite ?String.eqb_refl; reflexivity|].
  all: vm_compute; reflexivity.
Qed.
End CommandsOutcome.

(** ** What the commands never do *)

Lemma firstSome_none {A B : Type} (p : A -> bool) (f : A -> option B) (l : list A) :
  (forall x, p x = true -> f x = None) -> forallb p l = true -> firstSome f l = None.
Proof.
  intros Hf. induction l as [|x l IH]; cbn; [reflexivity|].
  intros H. apply andb_prop in H as [Hx Hl]. rewrite (Hf x Hx). auto.
Qed.

Lemma forallb_weaken {A : Type} (p q : A -> bool) (l : list A) :
  (forall x, p x = true -> q x = true) -> forallb p l = true -> forallb q l = true.
Proof.
  intros Hpq. induction l as [|x l IH]; cbn; [reflexivity|].
  intros H. apply andb_prop in H as [Hx Hl]. rewrite (Hpq x Hx). auto.
Qed.

Ltac by_call :=
  let o := fresh "o" in
  intros o; destruct o as [[] ?]; cbn;
  repeat match goal with
         | x : ExecaOptions |- _ => destruct x as [[] []]; cbn
         end;
  congruence.

Lemma commandCall_mkdirOf dir o : commandCall dir o = true -> mkdirOf o = None.
Proof. revert o. by_call. Qed.

Lemma commandCall_chdirOf dir o : commandCall dir o = true -> chdirOf o = None.
Proof. revert o. by_call. Qed.

Lemma commandCall_listingOf dir o : commandCall dir o = true -> listingOf o = None.
Proof. revert o. by_call. Qed.

Lemma commandCall_resolveOf dir o : commandCall dir o = true -> resolveOf o = None.
Proof. revert o. by_call. Qed.

Lemma commandCall_cwdOf dir o : commandCall dir o = true -> cwdOf o = None.
Proof. revert o. by_call. Qed.

Lemma commandCall_targetDirOf dir o : commandCall dir o = true -> targetDirOf o = None.
Proof. revert o. by_call. Qed.

Lemma commandCall_questionOf dir o : commandCall dir o = true -> questionOf o = None.
Proof. revert o. by_call. Qed.

Lemma commandCall_probeOf dir command o : commandCall dir o = true -> probeOf command o = None.
Proof. revert o. by_call. Qed.

Lemma commandCall_cwdWithin dir o : commandCall dir o = true -> cwdWithin dir o = true.
Proof. revert o. by_call. Qed.

Lemma questions_none (p : Obs -> bool) (t : list Obs) :
  (forall o, p o = true -> questionOf o = None) -> forallb p t = true -> questions t = [].
Proof.
  intros Hp. induction t as [|o t IH]; cbn; [reflexivity|].
  intros H. apply andb_prop in H as [Ho Ht]. rewrite (Hp o Ho). auto.
Qed.

Lemma lastObs_endsWith (suffix t : list Obs) :
  endsWith suffix t -> suffix <> [] -> lastObs t = lastObs suffix.
Proof.
  induction 1 as [|o t Hends IH]; [reflexivity|].
  intros Hne. cbn [lastObs]. destruct t as [|o' t'].
  - inversion Hends. subst. contradiction.
  - auto.
Qed.

Lemma endsWithError_endsWith (suffix t : list Obs) :
  endsWith suffix t -> endsWithError suffix = true -> endsWithError t = true.
Proof.
  intros Hends H. unfold endsWithError in *.
  rewrite (lastObs_endsWith _ _ Hends); [exact H|].
  intros ->. discriminate H.
Qed.

Lemma endsWithLog_endsWith (text : string) (suffix t : list Obs) :
  endsWith suffix t -> endsWithLog text suffix = true -> endsWithLog text t = true.
Proof.
  intros Hends H. unfold endsWithLog in *.
  rewrite (lastObs_endsWith _ _ Hends); [exact H|].
  intros ->. discriminate H.
Qed.

Lemma offered_manager_known (language pm : string) :
  In pm (listChoices (packageManagerQuestion language)) -> includes managers pm = true.
Proof.
  intros H.
  destruct (valid_pair_cases _ _ H) as [[_ Hpm] | [[_ Hpm] | [_ ->]]].
  all: repeat match type of Hpm with | _ \/ _ => destruct Hpm as [Hpm | Hpm] end; try subst pm.
  all: reflexivity.
Qed.

Lemma offered_manager_not_node (language pm : string) :
  In pm (listChoices (packageManagerQuestion language)) -> (pm =? "node") = false.
Proof.
  intros H.
  destruct (valid_pair_cases _ _ H) as [[_ Hpm] | [[_ Hpm] | [_ ->]]].
  all: repeat match type of Hpm with | _ \/ _ => destruct Hpm as [Hpm | Hpm] end; try subst pm.
  all: reflexivity.
Qed.

(** What is known of the part of a run inside the target directory. *)
Ltac tail_facts h :=
  match goal with
  | Hrest : interp h (tryCatch (commandsAndClosing ?l ?pm ?td) unexpected) ?w2 = (?t2, ?o, _),
    Hin : In ?pm (listChoices (packageManagerQuestion ?l)) |- _ =>
      let Hplan := fresh "Hplan" in
      let Hout := fresh "Hout" in
      let Hdone := fresh "Hdone" in
      let Hfailed := fresh "Hfailed" in
      let Hcalls := fresh "Hcalls" in
      let Hfixed := fresh "Hfixed" in
      destruct (commands_outcome h w2 l pm td t2 o _ Hin Hrest)
        as (Hplan & Hout & Hdone & Hfailed & Hcalls & Hfixed);
      pose proof (firstSome_none _ mkdirOf t2 (commandCall_mkdirOf td) Hcalls);
      pose proof (firstSome_none _ chdirOf t2 (commandCall_chdirOf td) Hcalls);
      pose proof (firstSome_none _ listingOf t2 (commandCall_listingOf td) Hcalls);
      pose proof (firstSome_none _ resolveOf t2 (commandCall_resolveOf td) Hcalls);
      pose proof (firstSome_none _ cwdOf t2 (commandCall_cwdOf td) Hcalls);
      pose proof (firstSome_none _ targetDirOf t2 (commandCall_targetDirOf td) Hcalls);
      pose proof (questions_none _ t2 (commandCall_questionOf td) Hcalls);
      pose proof (firstSome_none _ (probeOf "node") t2 (commandCall_probeOf td "node") Hcalls);
      pose proof (forallb_weaken _ (cwdWithin td) t2 (commandCall_cwdWithin td) Hcalls);
      clear Hrest
  end.

(** Reading the explicit part of a trace with the readers above. *)
Ltac more_cbn :=
  cbn [firstError errorOf mkdirOf chdirOf listingOf resolveOf writeOf questionOf questions
       cwdWithin inputName listName firstSome forallb app andb] in *.

Ltac more_simpl :=
  repeat first [progress trace_simpl | progress more_cbn].

(** ** The help flag *)

(** X1.  With [-h] or [--help] anywhere on the command line, the run prints the
    greeting and the usage text and ends with status 0: fifteen lines on the
    standard output and no other call, whatever the other arguments and the
    machine.  The package managers the usage text lists for each language
    are the ones the selection offers for it. *)
Theorem help_flag_prints_usage
    {W : Type} (h : Handler W) (w : W) (args : list string) (t : list Obs) (status : Z) :
  runScript h w args = (t, status) ->
  helpRequested args = true ->
  status = 0%Z
  /\ forallb isLog t = true
  /\ length t = 15
  /\ hd_error t = Some (Did (ConsoleLog welcomeMessage) tt)
  /\ printed "  npx create-baml-app [project-name] [options]" t
  /\ forall language,
       In language (listChoices languageQuestion) ->
       printed ("  - " ++ language ++ ": "
                ++ join ", " (listChoices (packageManagerQuestion language))) t.
Proof.
  intros H Hhelp. start H Hrun.
  unfold helpRequested in Hhelp.
  unfold script, main, showHelp in Hrun.
  exec1 Hrun. rewrite Hhelp in Hrun. exec Hrun.
  repeat split; try reflexivity.
  - unfold printed. cbn [In]. auto 20.
  - intros language [<- | [<- | [<- | []]]]; unfold printed; cbn; auto 20.
Qed.

Lemma help_flag_prints_usage_witness :
  snd (runScript Sim.handler busyWorld ["demo"; "--use-current-dir"; "--help"]) = 0%Z
  /\ length (fst (runScript Sim.handler busyWorld ["demo"; "--use-current-dir"; "--help"])) = 15.
Proof.
  destruct (help_flag_prints_usage Sim.handler busyWorld ["demo"; "--use-current-dir"; "--help"]
              (fst (runScript Sim.handler busyWorld ["demo"; "--use-current-dir"; "--help"]))
              (snd (runScript Sim.handler busyWorld ["demo"; "--use-current-dir"; "--help"])))
    as (Hstatus & _ & Hlength & _).
  - now destruct (runScript Sim.handler busyWorld ["demo"; "--use-current-dir"; "--help"]).
  - reflexivity.
  - split; assumption.
Defined.

(** ** Exploring a run up to the target directory *)

Ltac by_log :=
  let o := fresh "o" in
  intros o; destruct o as [[] ?]; cbn; congruence.

(** Under the help flag a reader [f] of calls other than messages finds
    nothing. *)
Ltac no_help h Hrun Hhelp Hf :=
  let Hlogs := fresh "Hlogs" in
  destruct (script_help h _ _ _ _ _ Hrun Hhelp) as [_ Hlogs];
  exfalso; revert Hf;
  match goal with
  | |- context [firstSome ?f _] =>
      rewrite (logs_recognise_nothing f _ ltac:(by_log) Hlogs)
  end;
  discriminate.

(** The run from the two selections to the target directory, path by
    path. *)
Ltac explore h Hrun Hhelp :=
  let Hrest := fresh "Hrest" in
  destruct (script_opening h _ _ _ _ _ Hrun Hhelp)
    as (projectName & targetDir & c1 & c2 & language & pm & w1 & t1
        & -> & Hname & Hlanguage & Hmanager & Hrest);
  clear Hrun;
  pose proof (pick_In _ _ _ Hmanager) as Hin;
  unfold scaffold, checkPackageManager, prepareDirectory in Hrest;
  fold (commandsAndClosing language pm targetDir) in Hrest;
  exec Hrest; try prog_cbn Hrest;
  try tail_facts h.

(** The project name of the run is the one the opening shows. *)
Ltac same_name Hn Hname :=
  repeat match goal with
         | E : truthy _ = _ |- _ => rewrite E in Hn
         end;
  first [ injection Hn as <-
        | specialize (Hname eq_refl); rewrite Hname in Hn; injection Hn as <- ].

(** ** The directory *)

(** X2.  When a new directory is called for and the target already exists, the
    run complains on the standard error that the directory exists, naming it
    by the project name, and ends with status 1; nothing has been created,
    entered or started. *)
Theorem existing_directory_halts
    {W : Type} (h : Handler W) (w : W) (args : list string) (t : list Obs) (status : Z)
    (name dir : string) :
  runScript h w args = (t, status) ->
  projectNameOf args t = Some name ->
  usesCurrentDir args name = false ->
  firstSome targetDirOf t = Some dir ->
  firstSome (existsOf dir) t = Some true ->
  status = 1%Z
  /\ firstError t = Some (alreadyExistsMessage name)
  /\ endsWithError t = true
  /\ untouched t = true.
Proof.
  intros H Hn Huse Hdir Hfound. start H Hrun.
  destruct (helpRequested args) eqn:Hhelp; [no_help h Hrun Hhelp Hdir|].
  explore h Hrun Hhelp.
  all: open_up; more_simpl.
  all: same_name Hn Hname.
  all: try congruence.
  all: injection Hdir as <-.
  all: more_simpl.
  all: try discriminate Hfound.
  all: repeat split; reflexivity.
Qed.

Lemma existing_directory_halts_witness :
  snd (runScript Sim.handler takenWorld ["demo"]) = 1%Z
  /\ firstError (fst (runScript Sim.handler takenWorld ["demo"]))
     = Some (alreadyExistsMessage "demo")
  /\ endsWithError (fst (runScript Sim.handler takenWorld ["demo"])) = true
  /\ untouched (fst (runScript Sim.handler takenWorld ["demo"])) = true.
Proof.
  apply (existing_directory_halts Sim.handler takenWorld ["demo"] _ _ "demo" "/home/user/demo").
  - now destruct (runScript Sim.handler takenWorld ["demo"]).
  - reflexivity.
  - reflexivity.
  - vm_compute. reflexivity.
  - vm_compute. reflexivity.
Defined.



(** X4.  Whenever the script changes directory, it is into the target directory.
    When that fails, the run reports "Error changing to directory" with the
    message of the error on the standard error and ends with status 1
    without starting a command. *)
Theorem chdir_failure_halts
    {W : Type} (h : Handler W) (w : W) (args : list string) (t : list Obs) (status : Z)
    (dir : string) (r : option JsError) :
  runScript h w args = (t, status) ->
  firstSome chdirOf t = Some (dir, r) ->
  firstSome targetDirOf t = Some dir
  /\ forall e, r = Some e ->
       status = 1%Z
       /\ firstError t = Some ("Error changing to directory: " ++ message e)
       /\ endsWithError t = true
       /\ steps t = [].
Proof.
  intros H Hcd. start H Hrun.
  destruct (helpRequested args) eqn:Hhelp; [no_help h Hrun Hhelp Hcd|].
  explore h Hrun Hhelp.
  all: open_up; more_simpl.
  all: try congruence.
  all: injection Hcd as <- <-.
  all: more_simpl.
  all: split; [reflexivity|].
  all: intros e' He'; try discriminate He'; injection He' as <-.
  all: repeat split; reflexivity.
Qed.

Lemma chdir_failure_halts_witness :
  snd (runScript (lockedOut eacces) pipWorld ["demo"]) = 1%Z
  /\ firstError (fst (runScript (lockedOut eacces) pipWorld ["demo"]))
     = Some "Error changing to directory: EACCES: permission denied"
  /\ steps (fst (runScript (lockedOut eacces) pipWorld ["demo"])) = [].
Proof.
  destruct (chdir_failure_halts (lockedOut eacces) pipWorld ["demo"]
              (fst (runScript (lockedOut eacces) pipWorld ["demo"]))
              (snd (runScript (lockedOut eacces) pipWorld ["demo"]))
              "/home/user/demo" (Some eacces))
    as (_ & Hfails).
  - now destruct (runScript (lockedOut eacces) pipWorld ["demo"]).
  - vm_compute. reflexivity.
  - destruct (Hfails eacces eq_refl) as (Hstatus & Herror & _ & Hsteps).
    repeat split; assumption.
Defined.

(** ** Errors nobody expects *)

(** X5.  When the current directory cannot be listed, the error of
    [readdirSync] is caught by the handler of [main().catch]: the run reports
    "An unexpected error occurred" with the message of the error on the
    standard error and ends with status 1; nothing has been created, entered
    or started. *)
Theorem unreadable_directory_is_reported
    {W : Type} (h : Handler W) (w : W) (args : list string) (t : list Obs) (status : Z)
    (e : JsError) :
  runScript h w args = (t, status) ->
  firstSome listingOf t = Some (inl e) ->
  status = 1%Z
  /\ firstError t = Some ("An unexpected error occurred: " ++ message e)
  /\ endsWithError t = true
  /\ untouched t = true.
Proof.
  intros H Hls. start H Hrun.
  destruct (helpRequested args) eqn:Hhelp; [no_help h Hrun Hhelp Hls|].
  explore h Hrun Hhelp.
  all: open_up; more_simpl.
  all: try congruence.
  all: injection Hls as <-.
  all: repeat split; reflexivity.
Qed.

Lemma unreadable_directory_is_reported_witness :
  snd (runScript (unreadable eacces) pipWorld ["."]) = 1%Z
  /\ firstError (fst (runScript (unreadable eacces) pipWorld ["."]))
     = Some "An unexpected error occurred: EACCES: permission denied"
  /\ endsWithError (fst (runScript (unreadable eacces) pipWorld ["."])) = true
  /\ untouched (fst (runScript (unreadable eacces) pipWorld ["."])) = true.
Proof.
  apply (unreadable_directory_is_reported (unreadable eacces) pipWorld ["."] _ _ eacces).
  - now destruct (runScript (unreadable eacces) pipWorld ["."]).
  - vm_compute. reflexivity.
Defined.

(** ** The two ways a run goes on after the selections *)

Lemma preparing_stepOf o : preparing o = true -> stepOf o = None.
Proof. revert o. by_call. Qed.

Lemma preparing_errorOf o : preparing o = true -> errorOf o = None.
Proof. revert o. by_call. Qed.

Lemma preparing_writeOf o : preparing o = true -> writeOf o = None.
Proof. revert o. by_call. Qed.

Lemma preparing_fixedWrite o : preparing o = true -> fixedWrite o = true.
Proof. revert o. by_call. Qed.

Lemma preparing_succeeded o : preparing o = true -> negb (failedStep o) = true.
Proof.
  destruct o as [[] r]; cbn; try congruence.
  destruct options as [[] []]; cbn; congruence.
Qed.

Lemma preparing_cwdWithin dir o : preparing o = true -> cwdWithin dir o = true.
Proof. revert o. by_call. Qed.

Lemma commandCall_fixedWrite dir o : commandCall dir o = true -> fixedWrite o = true.
Proof. revert o. by_call. Qed.

Lemma firstSome_app {A B : Type} (f : A -> option B) (l1 l2 : list A) :
  firstSome f l1 = None -> firstSome f (l1 ++ l2)%list = firstSome f l2.
Proof.
  induction l1 as [|x l1 IH]; cbn; [reflexivity|].
  destruct (f x); [discriminate | exact IH].
Qed.

Lemma steps_app (l1 l2 : list Obs) : steps (l1 ++ l2)%list = (steps l1 ++ steps l2)%list.
Proof.
  induction l1 as [|o l1 IH]; cbn [app steps]; [reflexivity|].
  destruct (stepOf o); cbn [app]; now rewrite IH.
Qed.

Lemma steps_preparing (pre : list Obs) : forallb preparing pre = true -> steps pre = [].
Proof.
  induction pre as [|o pre IH]; cbn [forallb steps]; [reflexivity|].
  intros H. apply andb_prop in H as [Ho Hpre]. rewrite (preparing_stepOf o Ho). auto.
Qed.

Lemma endsWith_app (pre t : list Obs) : endsWith t (pre ++ t)%list.
Proof. induction pre; cbn [app]; now constructor. Qed.

Lemma offered_manager_probe (language pm : string) (options : option string) (r : ExecaResult) :
  In pm (listChoices (packageManagerQuestion language)) ->
  fixedCommandLine (Did (Execa pm ["--version"] (mkOptions Ignore options)) r) = true.
Proof.
  intros H. cbn [fixedCommandLine isVersionQuery]. rewrite String.eqb_refl.
  unfold includes. cbn [existsb].
  rewrite (offered_manager_not_node _ _ H).
  apply (offered_manager_known _ _ H).
Qed.

Ltac split_at t2 l :=
  lazymatch l with
  | t2 => constr:(@nil Obs)
  | ?a :: ?l' => let p := split_at t2 l' in constr:(a :: p)
  end.

Ltac forallb_parts :=
  cbn [forallb];
  repeat match goal with
         | |- andb _ _ = true => apply andb_true_intro; split
         end.

Section Phases.
Context {W : Type} (h : Handler W).

(** A run without the help flag either stops before it is in the target
    directory, with status 1 and a message, or it gets there, and then it
    has done nothing but prepare. *)
Lemma script_phases (w : W) (args : list string) t o w' :
  interp h (script args) w = (t, o, w') ->
  helpRequested args = false ->
  (enteredTarget t = false /\ afterChdir t = [] /\ o = Exited 1%Z /\ steps t = []
   /\ firstSome writeOf t = None
   /\ forallb fixedCommandLine t = true
   /\ (endsWithError t = true
       \/ exists pm, selected "packageManager" t = Some pm
                     /\ endsWithLog (installLink pm ++ nl) t = true
                     /\ firstError t = None /\ untouched t = true))
  \/ exists targetDir language pm w2 pre t2,
       t = (pre ++ t2)%list
       /\ forallb preparing pre = true
       /\ forallb fixedCommandLine pre = true
       /\ interp h (tryCatch (commandsAndClosing language pm targetDir) unexpected) w2
          = (t2, o, w')
       /\ enteredTarget t = true
       /\ afterChdir t = t2
       /\ selected "language" t = Some language
       /\ selected "packageManager" t = Some pm
       /\ In pm (listChoices (packageManagerQuestion language))
       /\ firstSome targetDirOf t = Some targetDir
       /\ firstSome chdirOf t = Some (targetDir, None).
Proof.
  intros Hrun Hhelp.
  destruct (script_opening h _ _ _ _ _ Hrun Hhelp)
    as (projectName & targetDir & c1 & c2 & language & pm & w1 & t1
        & -> & Hname & Hlanguage & Hmanager & Hrest).
  clear Hrun.
  pose proof (pick_In _ _ _ Hmanager) as Hin.
  pose proof (fun o r => offered_manager_probe language pm o r Hin) as Hprobe.
  unfold scaffold, checkPackageManager, prepareDirectory in Hrest.
  fold (commandsAndClosing language pm targetDir) in Hrest.
  exec Hrest; try prog_cbn Hrest.
  all: first
    [ match goal with
      | Hrest : interp h (tryCatch (commandsAndClosing ?l ?pm ?td) unexpected) ?w2
                = (?t2, _, _)
        |- context [enteredTarget (?op ++ ?t1)%list] =>
          let p := split_at t2 t1 in
          right; exists td, l, pm, w2, (op ++ p)%list, t2;
          split; [now rewrite <- app_assoc|]
      end
    | left ].
  all: open_up; try congruence.
  all: first
    [ split; [forallb_parts; reflexivity|];
      split; [forallb_parts; first [reflexivity | apply Hprobe]|];
      split; [assumption|];
      more_simpl;
      repeat split; first [reflexivity | assumption]
    | split; [reflexivity|]; split; [reflexivity|]; split; [reflexivity|];
      split; [reflexivity|]; split; [reflexivity|];
      split; [forallb_parts; first [reflexivity | apply Hprobe]|];
      first [ left; reflexivity
            | right; exists pm; more_simpl; rewrite ?Hmanager;
              repeat split;
              first [ reflexivity
                    | unfold endsWithLog; cbn [lastObs]; apply String.eqb_refl ] ] ].
Qed.
End Phases.

Lemma logs_prepare (t : list Obs) : forallb isLog t = true -> forallb preparing t = true.
Proof.
  apply forallb_weaken. intros [[] r]; cbn; congruence.
Qed.

Lemma preparing_fixedWrites (t : list Obs) :
  forallb preparing t = true -> forallb fixedWrite t = true.
Proof. apply forallb_weaken, preparing_fixedWrite. Qed.

Lemma logs_fixedCommandLine (t : list Obs) :
  forallb isLog t = true -> forallb fixedCommandLine t = true.
Proof.
  apply forallb_weaken. intros [[] r]; cbn; congruence.
Qed.

Lemma unwritten_fixedWrites (t : list Obs) :
  firstSome writeOf t = None -> forallb fixedWrite t = true.
Proof.
  induction t as [|o t IH]; cbn [firstSome forallb]; [reflexivity|].
  destruct o as [[] r]; cbn; try exact IH. discriminate.
Qed.

(** ** The commands of every package manager *)

(** X6.  In every run, the commands started through [runCommand] are the first
    so many of the plan of the selected package manager: the installation of
    TypeScript where there is one, the creation of each manifest file that
    was not found in the target directory, then the dependency, [init] and
    [generate].  A run that ends with status 0 has started them all. *)
Theorem commands_follow_plan
    {W : Type} (h : Handler W) (w : W) (args : list string) (t : list Obs) (status : Z)
    (packageManager : string) :
  runScript h w args = (t, status) ->
  selected "packageManager" t = Some packageManager ->
  (exists n, steps t = firstn n (plan packageManager (foundAmong (afterChdir t))))
  /\ (status = 0%Z -> steps t = plan packageManager (foundAmong (afterChdir t))).
Proof.
  intros H Hsel. start H Hrun.
  destruct (helpRequested args) eqn:Hhelp.
  { rewrite (selected_help h w args _ _ _ _ Hrun Hhelp) in Hsel. discriminate. }
  destruct (script_phases h w args _ _ _ Hrun Hhelp)
    as [(_ & Hafter & -> & Hsteps & _)
       | (targetDir & language & pm & w2 & pre & t2 & Ht & Hpre & _ & Hrest & _ & Hafter
          & _ & Hpm & Hin & _)].
  - rewrite Hsteps. split; [exists 0; reflexivity | discriminate].
  - rewrite Hpm in Hsel. injection Hsel as ->.
    destruct (commands_outcome h _ _ _ _ _ _ _ Hin Hrest) as (Hplan & Hout & Hdone & _).
    rewrite Hafter. rewrite Ht.
    rewrite steps_app, (steps_preparing _ Hpre). cbn [app].
    split; [exact Hplan|].
    intros Hs. destruct Hout as [-> | ->]; [|discriminate Hs].
    apply (Hdone eq_refl).
Qed.

Lemma commands_follow_plan_witness :
  steps (fst (runScript Sim.handler bunWorld ["demo"]))
  = plan "bun" (foundAmong (afterChdir (fst (runScript Sim.handler bunWorld ["demo"])))).
Proof.
  destruct (commands_follow_plan Sim.handler bunWorld ["demo"]
              (fst (runScript Sim.handler bunWorld ["demo"]))
              (snd (runScript Sim.handler bunWorld ["demo"])) "bun")
    as [_ Hfull].
  - now destruct (runScript Sim.handler bunWorld ["demo"]).
  - vm_compute. reflexivity.
  - apply Hfull. vm_compute. reflexivity.
Defined.

(** ** How a run ends *)

(** X7.  The exit status of a run is 0 or 1.  A run without the help flag that
    ends with status 0 has entered the target directory, none of its
    commands has failed, and the last thing it printed is the closing
    message.  A run that ends with status 1 has said why as the last thing it
    did: on the standard error, or, when the package manager is not
    available, with the installation link on the standard output, and then
    nothing has been created, entered or started. *)
Theorem exit_status_is_explained
    {W : Type} (h : Handler W) (w : W) (args : list string) (t : list Obs) (status : Z) :
  runScript h w args = (t, status) ->
  (status = 0%Z \/ status = 1%Z)
  /\ (status = 0%Z -> helpRequested args = false ->
      enteredTarget t = true /\ allStepsSucceeded t = true
      /\ printed allDoneMessage t /\ endsWithLog nextStepsMessage t = true)
  /\ (status = 1%Z ->
      endsWithError t = true
      \/ exists packageManager,
           selected "packageManager" t = Some packageManager
           /\ endsWithLog (installLink packageManager ++ nl) t = true
           /\ firstError t = None /\ untouched t = true).
Proof.
  intros H. start H Hrun.
  destruct (helpRequested args) eqn:Hhelp.
  { destruct (script_help h w args _ _ _ Hrun Hhelp) as [-> _].
    split; [left; reflexivity|]. split; discriminate. }
  destruct (script_phases h w args _ _ _ Hrun Hhelp)
    as [(_ & _ & -> & _ & _ & _ & Hwhy)
       | (targetDir & language & pm & w2 & pre & t2 & Ht & Hpre & _ & Hrest & Hentered & _
          & _ & _ & Hin & _)].
  - split; [right; reflexivity|]. split; [discriminate|]. intros _. exact Hwhy.
  - destruct (commands_outcome h _ _ _ _ _ _ _ Hin Hrest) as (_ & Hout & Hdone & Hfailed & _).
    pose proof (endsWith_app pre t2) as Hends. rewrite <- Ht in Hends.
    split; [destruct Hout as [-> | ->]; [left | right]; reflexivity|].
    split.
    + intros Hs _. destruct Hout as [-> | ->]; [|discriminate Hs].
      destruct (Hdone eq_refl) as (_ & Hall & Hlast & Hprinted).
      split; [exact Hentered|]. split; [|split].
      * rewrite Ht. unfold allStepsSucceeded in *. rewrite forallb_app, Hall.
        rewrite (forallb_weaken _ _ _ preparing_succeeded Hpre). reflexivity.
      * exact (endsWith_In _ _ _ Hends Hprinted).
      * exact (endsWithLog_endsWith _ _ _ Hends Hlast).
    + intros Hs. destruct Hout as [-> | ->]; [discriminate Hs|].
      left. exact (endsWithError_endsWith _ _ Hends (Hfailed eq_refl)).
Qed.

Lemma exit_status_is_explained_witness :
  snd (runScript Sim.handler noCliWorld ["demo"]) = 1%Z
  /\ endsWithError (fst (runScript Sim.handler noCliWorld ["demo"])) = true.
Proof.
  destruct (exit_status_is_explained Sim.handler noCliWorld ["demo"]
              (fst (runScript Sim.handler noCliWorld ["demo"]))
              (snd (runScript Sim.handler noCliWorld ["demo"])))
    as (_ & _ & Hwhy).
  - now destruct (runScript Sim.handler noCliWorld ["demo"]).
  - split; [reflexivity|].
    destruct (Hwhy eq_refl) as [Herr | (pm & _ & _ & Hnone & _)]; [exact Herr|].
    vm_compute in Hnone. discriminate Hnone.
Defined.

(** ** Where the commands run *)

(** X8.  Whenever a command is started through [runCommand], the process has
    changed into the target directory before, and successfully: every such
    command comes after that change, and a command that is given a working
    directory of its own is given the target directory. *)
Theorem commands_run_in_target
    {W : Type} (h : Handler W) (w : W) (args : list string) (t : list Obs) (status : Z) :
  runScript h w args = (t, status) ->
  steps t <> [] ->
  exists dir,
    firstSome targetDirOf t = Some dir
    /\ firstSome chdirOf t = Some (dir, None)
    /\ steps t = steps (afterChdir t)
    /\ forallb (cwdWithin dir) t = true.
Proof.
  intros H Hsteps. start H Hrun.
  destruct (helpRequested args) eqn:Hhelp.
  { destruct (script_help h w args _ _ _ Hrun Hhelp) as [_ Hlogs].
    now rewrite (steps_preparing _ (logs_prepare _ Hlogs)) in Hsteps. }
  destruct (script_phases h w args _ _ _ Hrun Hhelp)
    as [(_ & _ & _ & Hnone & _)
       | (targetDir & language & pm & w2 & pre & t2 & Ht & Hpre & _ & Hrest & _ & Hafter
          & _ & _ & Hin & Htarget & Hchdir)].
  { contradiction. }
  destruct (commands_outcome h _ _ _ _ _ _ _ Hin Hrest) as (_ & _ & _ & _ & Hcalls & _).
  exists targetDir. split; [exact Htarget|]. split; [exact Hchdir|]. split.
  - rewrite Hafter. rewrite Ht. now rewrite steps_app, (steps_preparing _ Hpre).
  - rewrite Ht, forallb_app.
    rewrite (forallb_weaken _ _ _ (preparing_cwdWithin targetDir) Hpre).
    exact (forallb_weaken _ _ _ (commandCall_cwdWithin targetDir) Hcalls).
Qed.

Lemma commands_run_in_target_witness :
  firstSome chdirOf (fst (runScript Sim.handler bunWorld ["demo"]))
  = Some ("/home/user/demo", None)
  /\ forallb (cwdWithin "/home/user/demo") (fst (runScript Sim.handler bunWorld ["demo"])) = true.
Proof.
  destruct (commands_run_in_target Sim.handler bunWorld ["demo"]
              (fst (runScript Sim.handler bunWorld ["demo"]))
              (snd (runScript Sim.handler bunWorld ["demo"])))
    as (dir & Htarget & Hchdir & _ & Hcwd).
  - now destruct (runScript Sim.handler bunWorld ["demo"]).
  - vm_compute. discriminate.
  - vm_compute in Htarget. injection Htarget as <-. split; assumption.
Defined.

(** ** What reaches a command line *)

(** X9.  Every command line the script hands to [execa] is a constant of the
    script: the silent version query of a supported package manager or of
    node, or a command of one of the nine plans.  The project name, the
    target directory and whatever else the user or the machine answers never
    become a command or an argument.  And the only file the script writes
    itself is [tsconfig.json], with the configuration for deno. *)
Theorem command_lines_are_fixed
    {W : Type} (h : Handler W) (w : W) (args : list string) (t : list Obs) (status : Z) :
  runScript h w args = (t, status) ->
  forallb fixedCommandLine t = true /\ forallb fixedWrite t = true.
Proof.
  intros H. start H Hrun.
  destruct (helpRequested args) eqn:Hhelp.
  { destruct (script_help h w args _ _ _ Hrun Hhelp) as [_ Hlogs].
    split; [exact (logs_fixedCommandLine _ Hlogs)|].
    exact (preparing_fixedWrites _ (logs_prepare _ Hlogs)). }
  destruct (script_phases h w args _ _ _ Hrun Hhelp)
    as [(_ & _ & _ & _ & Hunwritten & Hfixed & _)
       | (targetDir & language & pm & w2 & pre & t2 & Ht & Hpre & Hfixed & Hrest & _ & _
          & _ & _ & Hin & _)].
  { split; [exact Hfixed | exact (unwritten_fixedWrites _ Hunwritten)]. }
  destruct (commands_outcome h _ _ _ _ _ _ _ Hin Hrest) as (_ & _ & _ & _ & Hcalls & Hfixed2).
  rewrite Ht, !forallb_app, Hfixed, Hfixed2, (preparing_fixedWrites _ Hpre).
  rewrite (forallb_weaken _ _ _ (commandCall_fixedWrite targetDir) Hcalls).
  split; reflexivity.
Qed.

Lemma command_lines_are_fixed_witness :
  forallb fixedCommandLine (fst (runScript Sim.handler pipWorld ["demo; ls"])) = true
  /\ forallb fixedWrite (fst (runScript Sim.handler pipWorld ["demo; ls"])) = true.
Proof.
  apply (command_lines_are_fixed Sim.handler pipWorld ["demo; ls"] _
           (snd (runScript Sim.handler pipWorld ["demo; ls"]))).
  now destruct (runScript Sim.handler pipWorld ["demo; ls"]).
Defined.

(** ** The questions *)

(** X10.  Under the help flag nothing is asked.  Otherwise the run asks for the
    project name when the first argument is missing or empty, then for the
    language and for the package manager; whatever happens next, it asks
    nothing else. *)
Theorem questions_asked
    {W : Type} (h : Handler W) (w : W) (args : list string) (t : list Obs) (status : Z) :
  runScript h w args = (t, status) ->
  questions t
  = if helpRequested args then []
    else ((if truthy (nth_error args 0) then [] else ["projectName"])
          ++ ["language"; "packageManager"])%list.
Proof.
  intros H. start H Hrun.
  destruct (helpRequested args) eqn:Hhelp.
  { destruct (script_help h w args _ _ _ Hrun Hhelp) as [_ Hlogs].
    apply (questions_none isLog); [by_log | exact Hlogs]. }
  explore h Hrun Hhelp.
  all: open_up; more_simpl.
  all: try congruence.
  all: repeat match goal with Hq : questions _ = [] |- _ => rewrite Hq; clear Hq end.
  all: reflexivity.
Qed.

Lemma questions_asked_witness :
  questions (fst (runScript Sim.handler typingWorld [])) = ["projectName"; "language"; "packageManager"].
Proof.
  apply (questions_asked Sim.handler typingWorld [] _ (snd (runScript Sim.handler typingWorld []))).
  now destruct (runScript Sim.handler typingWorld []).
Defined.

(** ** The probe of node *)

(** X11.  The version of node is asked for only as a fallback: in a run that
    probes node, the package manager selected is npm, pnpm or yarn, and its
    own probe has failed. *)
Theorem node_is_probed_as_fallback
    {W : Type} (h : Handler W) (w : W) (args : list string) (t : list Obs) (status : Z)
    (r : ExecaResult) :
  runScript h w args = (t, status) ->
  probe "node" t = Some r ->
  exists packageManager,
    selected "packageManager" t = Some packageManager
    /\ includes ["npm"; "pnpm"; "yarn"] packageManager = true
    /\ probedFailing packageManager t = true.
Proof.
  intros H Hp. start H Hrun. unfold probe in Hp.
  destruct (helpRequested args) eqn:Hhelp; [no_help h Hrun Hhelp Hp|].
  explore h Hrun Hhelp.
  all: pose proof (offered_manager_not_node _ _ Hin) as Hnn.
  all: open_up; more_simpl.
  all: try congruence.
  all: rewrite Hnn in Hp; more_simpl.
  all: try congruence.
  all: exists pm; more_simpl.
  all: repeat split; assumption.
Qed.

Lemma node_is_probed_as_fallback_witness :
  selected "packageManager" (fst (runScript Sim.handler yarnlessWorld ["demo"])) = Some "yarn"
  /\ probedFailing "yarn" (fst (runScript Sim.handler yarnlessWorld ["demo"])) = true.
Proof.
  destruct (node_is_probed_as_fallback Sim.handler yarnlessWorld ["demo"]
              (fst (runScript Sim.handler yarnlessWorld ["demo"]))
              (snd (runScript Sim.handler yarnlessWorld ["demo"])) (Resolved None))
    as (pm & Hsel & _ & Hfail).
  - now destruct (runScript Sim.handler yarnlessWorld ["demo"]).
  - vm_compute. reflexivity.
  - assert (Hpm : pm = "yarn") by (vm_compute in Hsel; now injection Hsel as <-).
    rewrite Hpm in Hsel, Hfail. split; assumption.
Defined.

(** ** The two ways to a target directory *)

(** X12.  In a run without the help flag, the current directory is used when the
    project name is ["."] or one of the flags [--use-current-dir] and [-.]
    is given: then the target is what [process.cwd] answers, no path is
    resolved and no directory is made.  Otherwise the target is what
    [path.resolve] answers for the project name, the current directory is
    not asked for, and no directory is listed. *)
Theorem target_directory_modes
    {W : Type} (h : Handler W) (w : W) (args : list string) (t : list Obs) (status : Z)
    (name : string) :
  runScript h w args = (t, status) ->
  helpRequested args = false ->
  projectNameOf args t = Some name ->
  exists dir,
    firstSome targetDirOf t = Some dir
    /\ if usesCurrentDir args name
       then firstSome cwdOf t = Some dir
            /\ firstSome resolveOf t = None /\ firstSome mkdirOf t = None
       else firstSome resolveOf t = Some (name, dir)
            /\ firstSome cwdOf t = None /\ firstSome listingOf t = None.
Proof.
  intros H Hhelp Hn. start H Hrun.
  explore h Hrun Hhelp.
  all: open_up; more_simpl.
  all: try congruence.
  all: same_name Hn Hname.
  all: exists targetDir.
  all: match goal with E : usesCurrentDir _ _ = _ |- _ => rewrite E end.
  all: repeat split; first [reflexivity | assumption].
Qed.

Lemma target_directory_modes_witness :
  firstSome resolveOf (fst (runScript Sim.handler pipWorld ["demo"]))
  = Some ("demo", "/home/user/demo")
  /\ firstSome cwdOf (fst (runScript Sim.handler pipWorld ["demo"])) = None.
Proof.
  destruct (target_directory_modes Sim.handler pipWorld ["demo"]
              (fst (runScript Sim.handler pipWorld ["demo"]))
              (snd (runScript Sim.handler pipWorld ["demo"])) "demo")
    as (dir & Htarget & Hresolve & Hcwd & _).
  - now destruct (runScript Sim.handler pipWorld ["demo"]).
  - reflexivity.
  - reflexivity.
  - vm_compute in Htarget. injection Htarget as <-. split; assumption.
Defined.

(** X13.  When the current directory is used and is found missing or empty, the
    run goes on: it makes no directory and changes into the current
    directory. *)
Theorem empty_current_directory_is_accepted
    {W : Type} (h : Handler W) (w : W) (args : list string) (t : list Obs) (status : Z)
    (dir : string) :
  runScript h w args = (t, status) ->
  firstSome cwdOf t = Some dir ->
  firstSome (existsOf dir) t = Some false \/ firstSome listingOf t = Some (inr []) ->
  firstSome mkdirOf t = None
  /\ exists r, firstSome chdirOf t = Some (dir, r).
Proof.
  intros H Hcwd Hempty. start H Hrun.
  destruct (helpRequested args) eqn:Hhelp; [no_help h Hrun Hhelp Hcwd|].
  explore h Hrun Hhelp.
  all: open_up; more_simpl.
  all: try congruence.
  all: injection Hcwd as <-.
  all: more_simpl.
  all: try solve [destruct Hempty as [Hempty | Hempty];
                  [ discriminate Hempty
                  | first [discriminate Hempty | injection Hempty as ->; discriminate] ]].
  all: split; [first [reflexivity | assumption]|].
  all: eexists; reflexivity.
Qed.

Lemma empty_current_directory_is_accepted_witness :
  firstSome mkdirOf (fst (runScript Sim.handler pipWorld ["."])) = None
  /\ exists r, firstSome chdirOf (fst (runScript Sim.handler pipWorld ["."]))
               = Some ("/home/user", r).
Proof.
  apply (empty_current_directory_is_accepted Sim.handler pipWorld ["."] _
           (snd (runScript Sim.handler pipWorld ["."]))).
  - now destruct (runScript Sim.handler pipWorld ["."]).
  - vm_compute. reflexivity.
  - right. vm_compute. reflexivity.
Defined.

(** ** The installation links *)

(** X14.  Every package manager the selection can offer has an installation link:
    the two [switch] statements of [main] agree. *)
Theorem offered_manager_has_install_link (language packageManager : string) :
  In packageManager (listChoices (packageManagerQuestion language)) ->
  String.prefix "https://" (installLink packageManager) = true.
Proof.
  intros H.
  destruct (valid_pair_cases _ _ H) as [[_ Hpm] | [[_ Hpm] | [_ ->]]].
  all: repeat match type of Hpm with | _ \/ _ => destruct Hpm as [Hpm | Hpm] end;
    try subst packageManager.
  all: reflexivity.
Qed.

Lemma offered_manager_has_install_link_witness :
  String.prefix "https://" (installLink "bun") = true.
Proof.
  apply (offered_manager_has_install_link "TypeScript" "bun").
  cbn. auto 10.
Defined.

(** ** Deno *)

Section Deno.
Context {W : Type} (h : Handler W).

Lemma deno_commands (w : W) (targetDir : string) t o w' :
  interp h (tryCatch (commandsAndClosing "TypeScript" "deno" targetDir) unexpected) w
  = (t, o, w') ->
  firstSome (existsOf "tsconfig.json") t = Some false ->
  exists r,
    firstSome writeOf t = Some ("tsconfig.json", denoConfig, r)
    /\ (forall e, r = Some e ->
          exitStatus o = 1%Z /\ steps t = []
          /\ firstError t = Some ("Error creating tsconfig.json: " ++ message e)
          /\ endsWithError t = true)
    /\ (exitStatus o = 0%Z -> printed denoNote t /\ printed denoSetting t).
Proof.
  intros Hrest Hfound.
  unfold commandsAndClosing, executeCommands, setupTypeScript in Hrest.
  revert Hfound. exec_goal Hrest. all: intros Hfound.
  all: more_simpl.
  all: try discriminate Hfound.
  all: eexists; split; [reflexivity|]; split.
  all: try (intros e' He'; first [discriminate He' | injection He' as <-];
            repeat split; reflexivity).
  all: intros Ho; first [discriminate Ho | split; unfold printed; cbn [In]; auto 40].
Qed.
End Deno.

(** X15.  With deno selected and no [tsconfig.json] found in the target directory,
    the script writes the file itself, with its configuration for deno, and
    starts no command for it.  When the write fails, the run reports "Error
    creating tsconfig.json" with the message of the error on the standard
    error and ends with status 1 before any command is started.  A run that
    ends with status 0 has printed the advice on the setting of the editor. *)
Theorem deno_writes_its_own_tsconfig
    {W : Type} (h : Handler W) (w : W) (args : list string) (t : list Obs) (status : Z) :
  runScript h w args = (t, status) ->
  selected "packageManager" t = Some "deno" ->
  foundInTarget "tsconfig.json" t = Some false ->
  exists r,
    firstSome writeOf t = Some ("tsconfig.json", denoConfig, r)
    /\ (forall e, r = Some e ->
          status = 1%Z /\ steps t = []
          /\ firstError t = Some ("Error creating tsconfig.json: " ++ message e)
          /\ endsWithError t = true)
    /\ (status = 0%Z -> printed denoNote t /\ printed denoSetting t).
Proof.
  intros H Hsel Hfound. start H Hrun.
  destruct (helpRequested args) eqn:Hhelp.
  { rewrite (selected_help h w args _ _ _ _ Hrun Hhelp) in Hsel. discriminate. }
  unfold foundInTarget in Hfound.
  destruct (script_phases h w args _ _ _ Hrun Hhelp)
    as [(_ & Hafter & _)
       | (targetDir & language & pm & w2 & pre & t2 & Ht & Hpre & _ & Hrest & _ & Hafter
          & _ & Hpm & Hin & _)].
  { rewrite Hafter in Hfound. discriminate. }
  rewrite Hafter in Hfound. rewrite Hpm in Hsel. injection Hsel as ->.
  assert (Hlanguage : language = "TypeScript").
  { destruct (valid_pair_cases _ _ Hin) as [[_ Hpm'] | [[-> _] | [_ Hpm']]];
      [|reflexivity|discriminate Hpm'].
    repeat destruct Hpm' as [Hpm' | Hpm']; discriminate Hpm'. }
  subst language.
  destruct (deno_commands h _ _ _ _ _ Hrest Hfound) as (r & Hwrite & Hfails & Hdone).
  pose proof (endsWith_app pre t2) as Hends. rewrite <- Ht in Hends.
  exists r. split; [|split].
  - rewrite Ht, firstSome_app; [exact Hwrite|].
    exact (firstSome_none _ _ _ preparing_writeOf Hpre).
  - intros e He. destruct (Hfails e He) as (Hstatus & Hsteps & Herror & Hlast).
    split; [exact Hstatus|]. split; [|split].
    + now rewrite Ht, steps_app, (steps_preparing _ Hpre).
    + unfold firstError in *. rewrite Ht, firstSome_app; [exact Herror|].
      exact (firstSome_none _ _ _ preparing_errorOf Hpre).
    + exact (endsWithError_endsWith _ _ Hends Hlast).
  - intros Hs. destruct (Hdone Hs) as [Hnote Hsetting].
    split; [exact (endsWith_In _ _ _ Hends Hnote) | exact (endsWith_In _ _ _ Hends Hsetting)].
Qed.

Lemma deno_writes_its_own_tsconfig_witness :
  snd (runScript (writeProtected eacces) denoWorld ["demo"]) = 1%Z
  /\ steps (fst (runScript (writeProtected eacces) denoWorld ["demo"])) = []
  /\ firstError (fst (runScript (writeProtected eacces) denoWorld ["demo"]))
     = Some "Error creating tsconfig.json: EACCES: permission denied".
Proof.
  destruct (deno_writes_its_own_tsconfig (writeProtected eacces) denoWorld ["demo"]
              (fst (runScript (writeProtected eacces) denoWorld ["demo"]))
              (snd (runScript (writeProtected eacces) denoWorld ["demo"])))
    as (r & Hwrite & Hfails & _).
  - now destruct (runScript (writeProtected eacces) denoWorld ["demo"]).
  - vm_compute. reflexivity.
  - vm_compute. reflexivity.
  - assert (Hr : r = Some eacces) by (vm_compute in Hwrite; now injection Hwrite as <-).
    destruct (Hfails eacces Hr) as (Hstatus & Hsteps & Herror & _).
    repeat split; assumption.
Defined.

(** ** Manifest files that are already there *)



Section Manifests.
Context {W : Type} (h : Handler W).

End Manifests.





